(** * Renesas R-Car Gen3 USB 2.0 PHY driver (drivers/phy/phy-rcar-gen3.c)

    A shallow embedding of the PHY operations [init], [exit], [power_on],
    [power_off] and [set_mode].  The driver is straight-line register
    programming, so every operation is a computation in a small state monad
    over a register file; each bus access and each regulator call is also
    appended to a log, which lets the statements speak about the order and
    the number of accesses and not only about the final register values. *)

From Stdlib Require Import ZArith List Bool Lia String.
Import ListNotations.

Local Open Scope Z_scope.

(** ** 32-bit words *)

Module U32.

(** A [u32] is a [Z] reduced modulo [2^32]. *)
Definition wrap (x : Z) : Z := x mod 2 ^ 32.

(** Modelled from the spec: [BIT(n)] of linux/bitops.h, which is not among
    the sources; the word with only bit [n] set, the bit numbers being
    those of the register table in section 6. *)
Definition BIT (n : Z) : Z := Z.shiftl 1 n.

End U32.
Import U32.

(** ** Register map (byte offsets from the block base) *)

(* USB2.0 Host registers (original offset is +0x200) *)
Definition USB2_INT_ENABLE : Z := 0x000.
Definition USB2_USBCTR : Z := 0x00c.
Definition USB2_SPD_RSM_TIMSET : Z := 0x10c.
Definition USB2_OC_TIMSET : Z := 0x110.
Definition USB2_COMMCTRL : Z := 0x600.
Definition USB2_OBINTSTA : Z := 0x604.
Definition USB2_OBINTEN : Z := 0x608.
Definition USB2_VBCTRL : Z := 0x60c.
Definition USB2_LINECTRL1 : Z := 0x610.
Definition USB2_ADPCTRL : Z := 0x630.

(* INT_ENABLE *)
Definition USB2_INT_ENABLE_UCOM_INTEN : Z := BIT 3.
Definition USB2_INT_ENABLE_USBH_INTB_EN : Z := BIT 2.
Definition USB2_INT_ENABLE_USBH_INTA_EN : Z := BIT 1.

(* USBCTR *)
Definition USB2_USBCTR_PLL_RST : Z := BIT 1.

(* SPD_RSM_TIMSET *)
Definition USB2_SPD_RSM_TIMSET_INIT : Z := 0x014e029b.

(* OC_TIMSET *)
Definition USB2_OC_TIMSET_INIT : Z := 0x000209ab.

(* COMMCTRL *)
Definition USB2_COMMCTRL_OTG_PERI : Z := BIT 31. (* 1 = Peripheral mode *)

(* OBINTSTA and OBINTEN *)
Definition USB2_OBINT_SESSVLDCHG : Z := BIT 12.
Definition USB2_OBINT_IDDIGCHG : Z := BIT 11.

(* VBCTRL *)
Definition USB2_VBCTRL_DRVVBUSSEL : Z := BIT 8.

(* LINECTRL1 *)
Definition USB2_LINECTRL1_DPRPD_EN : Z := BIT 19.
Definition USB2_LINECTRL1_DP_RPD : Z := BIT 18.
Definition USB2_LINECTRL1_DMRPD_EN : Z := BIT 17.
Definition USB2_LINECTRL1_DM_RPD : Z := BIT 16.

(* ADPCTRL *)
Definition USB2_ADPCTRL_OTGSESSVLD : Z := BIT 20.
Definition USB2_ADPCTRL_IDDIG : Z := BIT 19.
Definition USB2_ADPCTRL_IDPULLUP : Z := BIT 5. (* 1 = ID sampling is enabled *)
Definition USB2_ADPCTRL_DRVVBUS : Z := BIT 4.

(** ** The machine: register file, access log, state monad *)

(** What the driver does to the outside world, in program order. *)
Inductive event : Type :=
| EvRead (addr val : Z)             (* a 32-bit bus load and the value it got *)
| EvWrite (addr val : Z)            (* a 32-bit bus store *)
| EvRegulator (enable : bool) (ret : Z). (* regulator_set_enable and its result *)

Record world : Type := World {
  mem : Z -> Z;        (* the register file, by bus address *)
  log : list event     (* oldest event first *)
}.

(** Store [v] at [a], every other address untouched. *)
Definition upd (m : Z -> Z) (a v : Z) : Z -> Z :=
  fun x => if x =? a then v else m x.

Definition emit (e : event) (w : world) : world :=
  {| mem := mem w; log := log w ++ [e] |}.

Definition M (A : Type) : Type := world -> A * world.

Definition ret {A} (a : A) : M A := fun w => (a, w).

Definition bind {A B} (c : M A) (k : A -> M B) : M B :=
  fun w => let (a, w') := c w in k a w'.

Declare Scope mmio_scope.
Delimit Scope mmio_scope with mmio.
Notation "x <- c ;; k" := (bind c (fun x => k))
  (at level 61, c at next level, right associativity) : mmio_scope.
Notation "c ;; k" := (bind c (fun _ => k))
  (at level 61, right associativity) : mmio_scope.
Local Open Scope mmio_scope.

(** The accessors of asm/io.h are not among the sources.  Section 9 of the
    specification describes them as load, store and
    read-modify-write-with-mask over a register file, which is what the five
    definitions below are; a register holds 32 bits, so loads and stores
    truncate. *)

(** Modelled from the spec: [readl] of asm/io.h, a 32-bit load. *)
Definition readl (addr : Z) : M Z :=
  fun w => let v := wrap (mem w addr) in (v, emit (EvRead addr v) w).

(** Modelled from the spec: [writel] of asm/io.h, a 32-bit store; the value
    comes first, as in C. *)
Definition writel (val addr : Z) : M unit :=
  fun w => let v := wrap val in
           (tt, emit (EvWrite addr v) {| mem := upd (mem w) addr v; log := log w |}).

(** Modelled from the spec: [clrsetbits_le32] of asm/io.h, a load followed
    by a store of [(v & ~clear) | set]. *)
Definition clrsetbits_le32 (addr clear set : Z) : M unit :=
  v <- readl addr ;; writel (Z.lor (Z.land v (Z.lnot clear)) set) addr.

(** Modelled from the spec: [setbits_le32] of asm/io.h, a load followed by
    a store of [v | set]. *)
Definition setbits_le32 (addr set : Z) : M unit :=
  v <- readl addr ;; writel (Z.lor v set) addr.

(** Modelled from the spec: [clrbits_le32] of asm/io.h, a load followed by
    a store of [v & ~clear]. *)
Definition clrbits_le32 (addr clear : Z) : M unit :=
  v <- readl addr ;; writel (Z.land v (Z.lnot clear)) addr.

(** Modelled from the spec: [enum phy_mode] is declared in generic-phy.h,
    which is not among the sources.  The three modes the driver names are
    constructors; every other enumerator is [PHY_MODE_OTHER] with its
    value. *)
Inductive phy_mode : Type :=
| PHY_MODE_USB_HOST
| PHY_MODE_USB_DEVICE
| PHY_MODE_USB_OTG
| PHY_MODE_OTHER (literal : Z).

Section Driver.

(** The regulator framework is an external collaborator: a regulator
    device is opaque, and [regulator_set_enable] answers with an [int].  It
    is another device, so a call to it does not touch the PHY registers. *)
Variable udevice : Type.
Variable regulator_set_enable : udevice -> bool -> Z.

(** The errno value behind [-EINVAL] (linux/errno.h). *)
Variable EINVAL : Z.

(** [struct rcar_gen3_phy]; [vbus_supply] is a pointer that may be NULL.
    The clock handle is only used by probe and remove, which are not
    embedded.  [regs] is an [fdt_addr_t]; the block is far from the end of
    the address space, so [regs + offset] is not reduced. *)
Record rcar_gen3_phy : Type := {
  regs : Z;
  vbus_supply : option udevice
}.

Definition rcar_gen3_phy_phy_init (priv : rcar_gen3_phy) : M Z :=
  (* Initialize USB2 part *)
  writel 0 (regs priv + USB2_INT_ENABLE) ;;
  writel USB2_SPD_RSM_TIMSET_INIT (regs priv + USB2_SPD_RSM_TIMSET) ;;
  writel USB2_OC_TIMSET_INIT (regs priv + USB2_OC_TIMSET) ;;
  ret 0.

Definition rcar_gen3_phy_phy_exit (priv : rcar_gen3_phy) : M Z :=
  writel 0 (regs priv + USB2_INT_ENABLE) ;;
  ret 0.

(** The call into the regulator framework, recorded in the log. *)
Definition regulator_call (supply : udevice) (enable : bool) : M Z :=
  fun w => let r := regulator_set_enable supply enable in
           (r, emit (EvRegulator enable r) w).

Definition rcar_gen3_phy_phy_power_on (priv : rcar_gen3_phy) : M Z :=
  let pll_reset :=
    setbits_le32 (regs priv + USB2_USBCTR) USB2_USBCTR_PLL_RST ;;
    clrbits_le32 (regs priv + USB2_USBCTR) USB2_USBCTR_PLL_RST ;;
    ret 0 in
  match vbus_supply priv with
  | Some supply =>
      r <- regulator_call supply true ;;
      if negb (r =? 0) then ret r else pll_reset
  | None => pll_reset
  end.

Definition rcar_gen3_phy_phy_power_off (priv : rcar_gen3_phy) : M Z :=
  match vbus_supply priv with
  | None => ret 0
  | Some supply => regulator_call supply false
  end.

Definition rcar_gen3_phy_phy_set_mode
    (priv : rcar_gen3_phy) (mode : phy_mode) (submode : Z) : M Z :=
  let adpdevmask := Z.lor USB2_ADPCTRL_IDDIG USB2_ADPCTRL_OTGSESSVLD in
  mode <- match mode with
          | PHY_MODE_USB_OTG =>
              (if negb (submode =? 0) then
                 (* OTG submode is used as initialization indicator *)
                 writel (Z.lor (Z.lor USB2_INT_ENABLE_UCOM_INTEN
                                      USB2_INT_ENABLE_USBH_INTB_EN)
                               USB2_INT_ENABLE_USBH_INTA_EN)
                        (regs priv + USB2_INT_ENABLE) ;;
                 setbits_le32 (regs priv + USB2_VBCTRL)
                              USB2_VBCTRL_DRVVBUSSEL ;;
                 writel (Z.lor USB2_OBINT_SESSVLDCHG USB2_OBINT_IDDIGCHG)
                        (regs priv + USB2_OBINTSTA) ;;
                 setbits_le32 (regs priv + USB2_OBINTEN)
                              (Z.lor USB2_OBINT_SESSVLDCHG
                                     USB2_OBINT_IDDIGCHG) ;;
                 setbits_le32 (regs priv + USB2_ADPCTRL)
                              USB2_ADPCTRL_IDPULLUP ;;
                 clrsetbits_le32 (regs priv + USB2_LINECTRL1)
                   (Z.lor (Z.lor (Z.lor USB2_LINECTRL1_DP_RPD
                                        USB2_LINECTRL1_DM_RPD)
                                 USB2_LINECTRL1_DPRPD_EN)
                          USB2_LINECTRL1_DMRPD_EN)
                   (Z.lor USB2_LINECTRL1_DPRPD_EN USB2_LINECTRL1_DMRPD_EN)
               else ret tt) ;;
              adpctrl <- readl (regs priv + USB2_ADPCTRL) ;;
              if Z.land adpctrl adpdevmask =? adpdevmask
              then ret PHY_MODE_USB_DEVICE
              else ret PHY_MODE_USB_HOST
          | _ => ret mode
          end ;;
  match mode with
  | PHY_MODE_USB_HOST =>
      clrbits_le32 (regs priv + USB2_COMMCTRL) USB2_COMMCTRL_OTG_PERI ;;
      setbits_le32 (regs priv + USB2_LINECTRL1)
                   (Z.lor USB2_LINECTRL1_DP_RPD USB2_LINECTRL1_DM_RPD) ;;
      setbits_le32 (regs priv + USB2_ADPCTRL) USB2_ADPCTRL_DRVVBUS ;;
      ret 0
  | PHY_MODE_USB_DEVICE =>
      setbits_le32 (regs priv + USB2_COMMCTRL) USB2_COMMCTRL_OTG_PERI ;;
      clrsetbits_le32 (regs priv + USB2_LINECTRL1)
                      (Z.lor USB2_LINECTRL1_DP_RPD USB2_LINECTRL1_DM_RPD)
                      USB2_LINECTRL1_DM_RPD ;;
      clrbits_le32 (regs priv + USB2_ADPCTRL) USB2_ADPCTRL_DRVVBUS ;;
      ret 0
  | _ =>
      (* dev_err(phy->dev, "Unknown mode %d\n", mode); *)
      ret (- EINVAL)
  end.

End Driver.

Arguments regs {udevice} _.
Arguments vbus_supply {udevice} _.
Arguments rcar_gen3_phy_phy_init {udevice} priv.
Arguments rcar_gen3_phy_phy_exit {udevice} priv.
Arguments rcar_gen3_phy_phy_power_on {udevice} regulator_set_enable priv.
Arguments rcar_gen3_phy_phy_power_off {udevice} regulator_set_enable priv.
Arguments rcar_gen3_phy_phy_set_mode {udevice} EINVAL priv mode submode.

(** ** Vocabulary of the statements *)

(** The initialization block of [set_mode] (the body of [if (submode)]), on
    its own, so that the world it leaves behind can be named. *)
Definition otg_arm (base : Z) : M unit :=
  writel (Z.lor (Z.lor USB2_INT_ENABLE_UCOM_INTEN USB2_INT_ENABLE_USBH_INTB_EN)
                USB2_INT_ENABLE_USBH_INTA_EN)
         (base + USB2_INT_ENABLE) ;;
  setbits_le32 (base + USB2_VBCTRL) USB2_VBCTRL_DRVVBUSSEL ;;
  writel (Z.lor USB2_OBINT_SESSVLDCHG USB2_OBINT_IDDIGCHG)
         (base + USB2_OBINTSTA) ;;
  setbits_le32 (base + USB2_OBINTEN)
               (Z.lor USB2_OBINT_SESSVLDCHG USB2_OBINT_IDDIGCHG) ;;
  setbits_le32 (base + USB2_ADPCTRL) USB2_ADPCTRL_IDPULLUP ;;
  clrsetbits_le32 (base + USB2_LINECTRL1)
    (Z.lor (Z.lor (Z.lor USB2_LINECTRL1_DP_RPD USB2_LINECTRL1_DM_RPD)
                  USB2_LINECTRL1_DPRPD_EN)
           USB2_LINECTRL1_DMRPD_EN)
    (Z.lor USB2_LINECTRL1_DPRPD_EN USB2_LINECTRL1_DMRPD_EN).

(** The world in which [set_mode(OTG, submode)] samples ADPCTRL. *)
Definition otg_sampled (base submode : Z) (w : world) : world :=
  if negb (submode =? 0) then snd (otg_arm base w) else w.

(** The test [(adpctrl & adpdevmask) == adpdevmask] and the mode it picks. *)
Definition otg_resolve (adpctrl : Z) : phy_mode :=
  let adpdevmask := Z.lor USB2_ADPCTRL_IDDIG USB2_ADPCTRL_OTGSESSVLD in
  if Z.land adpctrl adpdevmask =? adpdevmask
  then PHY_MODE_USB_DEVICE else PHY_MODE_USB_HOST.

(** The values stored to [addr], oldest first. *)
Fixpoint writes_to (addr : Z) (l : list event) : list Z :=
  match l with
  | [] => []
  | EvWrite a v :: l' =>
      if a =? addr then v :: writes_to addr l' else writes_to addr l'
  | _ :: l' => writes_to addr l'
  end.

(** The regulator calls, oldest first. *)
Fixpoint regulator_calls (l : list event) : list (bool * Z) :=
  match l with
  | [] => []
  | EvRegulator en r :: l' => (en, r) :: regulator_calls l'
  | _ :: l' => regulator_calls l'
  end.

(** ** Concrete instances

    A block at the address of the first USB 2.0 channel of an R-Car H3, with
    and without a VBUS regulator; regulators that accept and that refuse;
    and three register files. *)

Definition phy_base : Z := 0xee080200.

Definition phy_no_supply : rcar_gen3_phy unit :=
  {| regs := phy_base; vbus_supply := None |}.

Definition phy_with_supply : rcar_gen3_phy unit :=
  {| regs := phy_base; vbus_supply := Some tt |}.

Definition regulator_ok (_ : unit) (_ : bool) : Z := 0.

Definition regulator_eio (_ : unit) (_ : bool) : Z := -5.

(** Every register reads 0. *)
Definition world_zero : world := {| mem := fun _ => 0; log := [] |}.

(** Every register reads 0x00000100, a bit no branch of set_mode names in
    COMMCTRL, LINECTRL1 or ADPCTRL. *)
Definition world_bit8 : world := {| mem := fun _ => 0x100; log := [] |}.

(** ADPCTRL reads IDDIG | OTGSESSVLD, everything else 0. *)
Definition world_device_cable : world :=
  {| mem := fun a => if a =? phy_base + USB2_ADPCTRL then 0x180000 else 0;
     log := [] |}.

(** ** The operation table

    [rcar_gen3_phy_phy_ops] gives the generic PHY layer one entry per
    operation; the layer may call them in any order. *)

Inductive phy_op : Type :=
| OP_init
| OP_exit
| OP_power_on
| OP_power_off
| OP_set_mode (mode : phy_mode) (submode : Z).

Section Ops.

Variable udevice : Type.
Variable regulator_set_enable : udevice -> bool -> Z.
Variable EINVAL : Z.

Definition rcar_gen3_phy_phy_ops
    (priv : rcar_gen3_phy udevice) (op : phy_op) : M Z :=
  match op with
  | OP_init => rcar_gen3_phy_phy_init priv
  | OP_exit => rcar_gen3_phy_phy_exit priv
  | OP_power_on => rcar_gen3_phy_phy_power_on regulator_set_enable priv
  | OP_power_off => rcar_gen3_phy_phy_power_off regulator_set_enable priv
  | OP_set_mode mode submode =>
      rcar_gen3_phy_phy_set_mode EINVAL priv mode submode
  end.

(** A sequence of calls through the table; the results are dropped. *)
Fixpoint run_ops (priv : rcar_gen3_phy udevice) (ops : list phy_op)
    (w : world) : world :=
  match ops with
  | [] => w
  | op :: ops' => run_ops priv ops' (snd (rcar_gen3_phy_phy_ops priv op w))
  end.

End Ops.

Arguments rcar_gen3_phy_phy_ops {udevice} regulator_set_enable EINVAL priv op.
Arguments run_ops {udevice} regulator_set_enable EINVAL priv ops w.


(** ** Binding: probe and remove

    probe and remove talk to the device model, the regulator framework and
    the clock framework and never to the PHY registers.  Their state is the
    private structure of the device and the list of the framework calls
    made so far. *)

Inductive dm_call : Type :=
| CallReadAddr (addr : Z)                  (* dev_read_addr and its result *)
| CallGetSupply (name : string) (ret : Z)  (* device_get_supply_regulator *)
| CallClkGet (index : Z) (ret : Z)         (* clk_get_by_index *)
| CallClkEnable (ret : Z)                  (* clk_enable *)
| CallClkDisable (ret : Z).                (* clk_disable *)

Section Binding.

Variable udevice : Type.
Variable clk : Type.

(** The collaborators.  A callee that is handed a pointer into the private
    structure gets the field's value and answers with the value the field
    has when it returns. *)
Variable dev_read_addr : udevice -> Z.
Variable device_get_supply_regulator :
  udevice -> string -> option udevice -> Z * option udevice.
Variable clk_get_by_index : udevice -> Z -> clk -> Z * clk.
Variable clk_enable : clk -> Z * clk.
Variable clk_disable : clk -> Z * clk.

(** Constants of fdtdec.h and linux/errno.h. *)
Variable FDT_ADDR_T_NONE : Z.
Variable EINVAL : Z.
Variable ENOENT : Z.

(** [struct rcar_gen3_phy] with all three fields. *)
Record rcar_gen3_phy_priv : Type := {
  priv_regs : Z;
  priv_clk : clk;
  priv_vbus_supply : option udevice
}.

Record dm_state : Type := {
  dm_priv : rcar_gen3_phy_priv;
  dm_calls : list dm_call      (* oldest call first *)
}.

(** What [dev_get_priv] hands to the PHY operations. *)
Definition phy_of_priv (p : rcar_gen3_phy_priv) : rcar_gen3_phy udevice :=
  {| regs := priv_regs p; vbus_supply := priv_vbus_supply p |}.

Definition rcar_gen3_phy_probe (dev : udevice) (s : dm_state)
    : Z * dm_state :=
  let p := dm_priv s in
  let addr := dev_read_addr dev in
  let p := {| priv_regs := addr; priv_clk := priv_clk p;
              priv_vbus_supply := priv_vbus_supply p |} in
  let l := dm_calls s ++ [CallReadAddr addr] in
  if priv_regs p =? FDT_ADDR_T_NONE then
    (- EINVAL, {| dm_priv := p; dm_calls := l |})
  else
    let (ret, supply) :=
      device_get_supply_regulator dev "vbus-supply" (priv_vbus_supply p) in
    let p := {| priv_regs := priv_regs p; priv_clk := priv_clk p;
                priv_vbus_supply := supply |} in
    let l := l ++ [CallGetSupply "vbus-supply" ret] in
    if negb (ret =? 0) && negb (ret =? - ENOENT) then
      (* pr_err("Failed to get PHY regulator\n"); *)
      (ret, {| dm_priv := p; dm_calls := l |})
    else
      (* Enable clock *)
      let (ret, c) := clk_get_by_index dev 0 (priv_clk p) in
      let p := {| priv_regs := priv_regs p; priv_clk := c;
                  priv_vbus_supply := priv_vbus_supply p |} in
      let l := l ++ [CallClkGet 0 ret] in
      if negb (ret =? 0) then (ret, {| dm_priv := p; dm_calls := l |})
      else
        let (ret, c) := clk_enable (priv_clk p) in
        let p := {| priv_regs := priv_regs p; priv_clk := c;
                    priv_vbus_supply := priv_vbus_supply p |} in
        let l := l ++ [CallClkEnable ret] in
        if negb (ret =? 0) then (ret, {| dm_priv := p; dm_calls := l |})
        else (0, {| dm_priv := p; dm_calls := l |}).

Definition rcar_gen3_phy_remove (s : dm_state) : Z * dm_state :=
  let p := dm_priv s in
  let (ret, c) := clk_disable (priv_clk p) in
  (0, {| dm_priv := {| priv_regs := priv_regs p; priv_clk := c;
                       priv_vbus_supply := priv_vbus_supply p |};
         dm_calls := dm_calls s ++ [CallClkDisable ret] |}).

End Binding.

Arguments priv_regs {udevice clk} _.
Arguments priv_clk {udevice clk} _.
Arguments priv_vbus_supply {udevice clk} _.
Arguments dm_priv {udevice clk} _.
Arguments dm_calls {udevice clk} _.
Arguments phy_of_priv {udevice clk} p.
Arguments rcar_gen3_phy_probe {udevice clk} dev_read_addr
  device_get_supply_regulator clk_get_by_index clk_enable
  FDT_ADDR_T_NONE EINVAL ENOENT dev s.
Arguments rcar_gen3_phy_remove {udevice clk} clk_disable s.

(** The calls of one kind in a list of framework calls. *)
Definition is_clk_call (c : dm_call) : bool :=
  match c with
  | CallClkGet _ _ | CallClkEnable _ | CallClkDisable _ => true
  | _ => false
  end.

Definition is_clk_enable (c : dm_call) : bool :=
  match c with CallClkEnable _ => true | _ => false end.

Definition is_clk_disable (c : dm_call) : bool :=
  match c with CallClkDisable _ => true | _ => false end.

Definition is_get_supply (c : dm_call) : bool :=
  match c with CallGetSupply _ _ => true | _ => false end.


(** A device-tree node and a clock for the concrete instances. *)
Definition dt_read_addr_ok (_ : unit) : Z := phy_base.

Definition fdt_addr_none : Z := 0xffffffffffffffff.

Definition dt_read_addr_none (_ : unit) : Z := fdt_addr_none.

Definition dt_supply_ok (_ : unit) (_ : string) (_ : option unit)
    : Z * option unit := (0, Some tt).

Definition dt_no_supply (_ : unit) (_ : string) (_ : option unit)
    : Z * option unit := (-2, None).

Definition dt_supply_eio (_ : unit) (_ : string) (_ : option unit)
    : Z * option unit := (-5, None).

Definition clk_get_ok (_ : unit) (_ : Z) (c : nat) : Z * nat := (0, c).

Definition clk_get_fail (_ : unit) (_ : Z) (c : nat) : Z * nat := (-61, c).

Definition clk_enable_ok (c : nat) : Z * nat := (0, S c).

Definition clk_enable_fail (c : nat) : Z * nat := (-16, c).

Definition clk_disable_fail (c : nat) : Z * nat := (-5, c).

Definition dm_unbound : dm_state unit nat :=
  {| dm_priv := {| priv_regs := 0; priv_clk := 0%nat;
                   priv_vbus_supply := None |};
     dm_calls := [] |}.

(** ** Words and bits *)

Lemma wrap_range x : 0 <= wrap x < 2 ^ 32.
Proof. unfold wrap. apply Z.mod_pos_bound. reflexivity. Qed.

Lemma wrap_small x : 0 <= x < 2 ^ 32 -> wrap x = x.
Proof. intros H. unfold wrap. now apply Z.mod_small. Qed.

Lemma wrap_wrap x : wrap (wrap x) = wrap x.
Proof. apply wrap_small, wrap_range. Qed.

Lemma testbit_wrap x i : 0 <= i < 32 -> Z.testbit (wrap x) i = Z.testbit x i.
Proof. intros H. unfold wrap. apply Z.mod_pow2_bits_low. lia. Qed.

Lemma testbit_wrap_high x i : 32 <= i -> Z.testbit (wrap x) i = false.
Proof. intros H. unfold wrap. apply Z.mod_pow2_bits_high. lia. Qed.

Lemma testbit_BIT n i : 0 <= n -> Z.testbit (BIT n) i = (i =? n).
Proof.
  intros Hn. unfold BIT. rewrite Z.shiftl_1_l, Z.pow2_bits_eqb by assumption.
  apply Z.eqb_sym.
Qed.

Lemma wrap_bits x :
  (forall i, 32 <= i -> Z.testbit x i = false) -> wrap x = x.
Proof.
  intros H. apply Z.bits_inj'. intros i Hi.
  destruct (Z.lt_ge_cases i 32) as [Hlt | Hge].
  - apply testbit_wrap. lia.
  - now rewrite testbit_wrap_high, H.
Qed.

(** Bit [i] of an expression built from [wrap], [BIT] and the bitwise
    operators, in terms of the bits of its leaves; comparisons of [i] with
    constants are then decided by [lia]. *)
Ltac bits :=
  repeat first
    [ rewrite Z.lor_spec | rewrite Z.land_spec
    | rewrite Z.lnot_spec by lia
    | rewrite testbit_BIT by lia
    | rewrite testbit_wrap by lia
    | rewrite testbit_wrap_high by lia ];
  repeat match goal with
         | |- context [?a =? ?b] =>
             destruct (Z.eqb_spec a b); try lia
         end;
  cbn [andb orb negb];
  rewrite ?andb_true_r, ?andb_false_r, ?orb_true_r, ?orb_false_r;
  try reflexivity.

(** Setting or clearing bits of a 32-bit word gives a 32-bit word, so the
    truncation at the next store or load changes nothing. *)
Lemma lor_range a b :
  0 <= a < 2 ^ 32 -> 0 <= b < 2 ^ 32 -> 0 <= Z.lor a b < 2 ^ 32.
Proof.
  intros Ha Hb. rewrite <- (wrap_small a Ha), <- (wrap_small b Hb).
  rewrite <- (wrap_bits (Z.lor (wrap a) (wrap b))).
  - apply wrap_range.
  - intros i Hi. bits.
Qed.

Lemma land_range a b : 0 <= a < 2 ^ 32 -> 0 <= Z.land a b < 2 ^ 32.
Proof.
  intros Ha. rewrite <- (wrap_small a Ha).
  rewrite <- (wrap_bits (Z.land (wrap a) b)).
  - apply wrap_range.
  - intros i Hi. bits.
Qed.

Create HintDb u32 discriminated.
#[export] Hint Resolve wrap_range lor_range land_range : u32.
#[export] Hint Extern 5 (0 <= ?c < 2 ^ 32) =>
  (let c' := eval cbv in c in
   lazymatch c' with
   | Z0 => idtac
   | Zpos _ => idtac
   end;
   vm_compute; split; [discriminate | reflexivity]) : u32.

(** Drop the truncations that act on words already in range. *)
Ltac unwrap :=
  repeat match goal with
         | |- context [wrap (wrap ?a)] => rewrite (wrap_wrap a)
         | |- context [wrap (Z.lor ?a ?b)] =>
             rewrite (wrap_small (Z.lor a b)) by auto 10 with u32
         | |- context [wrap (Z.land ?a ?b)] =>
             rewrite (wrap_small (Z.land a b)) by auto 10 with u32
         end.

(** The comparison against [adpdevmask] holds exactly when bits 19 (IDDIG)
    and 20 (OTGSESSVLD) are both set. *)
Lemma adpdevmask_test v :
  (Z.land v (Z.lor USB2_ADPCTRL_IDDIG USB2_ADPCTRL_OTGSESSVLD) =?
   Z.lor USB2_ADPCTRL_IDDIG USB2_ADPCTRL_OTGSESSVLD) =
  Z.testbit v 19 && Z.testbit v 20.
Proof.
  apply eq_true_iff_eq. rewrite Z.eqb_eq, andb_true_iff. split.
  - intros H. split.
    + apply (f_equal (fun x => Z.testbit x 19)) in H.
      rewrite Z.land_spec in H. now rewrite andb_true_r in H.
    + apply (f_equal (fun x => Z.testbit x 20)) in H.
      rewrite Z.land_spec in H. now rewrite andb_true_r in H.
  - intros [H19 H20]. apply Z.bits_inj'. intros i Hi.
    rewrite Z.land_spec.
    destruct (Z.eq_dec i 19) as [-> | N19]; [now rewrite H19 |].
    destruct (Z.eq_dec i 20) as [-> | N20]; [now rewrite H20 |].
    unfold USB2_ADPCTRL_IDDIG, USB2_ADPCTRL_OTGSESSVLD. bits.
Qed.

Lemma otg_resolve_bits v :
  otg_resolve v =
  if Z.testbit v 19 && Z.testbit v 20
  then PHY_MODE_USB_DEVICE else PHY_MODE_USB_HOST.
Proof. unfold otg_resolve. cbv zeta. now rewrite adpdevmask_test. Qed.

(** ** The log *)

Lemma writes_to_app a l1 l2 :
  writes_to a (l1 ++ l2) = writes_to a l1 ++ writes_to a l2.
Proof.
  induction l1 as [| e l1 IH]; [reflexivity |].
  destruct e as [a' v | a' v | en r]; cbn [app writes_to]; auto.
  destruct (a' =? a); [cbn [app]; f_equal |]; exact IH.
Qed.

Lemma regulator_calls_app l1 l2 :
  regulator_calls (l1 ++ l2) = regulator_calls l1 ++ regulator_calls l2.
Proof.
  induction l1 as [| e l1 IH]; [reflexivity |].
  destruct e as [a' v | a' v | en r]; cbn [app regulator_calls]; auto.
  now f_equal.
Qed.

(** ** The register file *)

Lemma upd_same m a v : upd m a v a = v.
Proof. unfold upd. now rewrite Z.eqb_refl. Qed.

Lemma upd_other m a v x : x <> a -> upd m a v x = m x.
Proof. intros H. unfold upd. now apply Z.eqb_neq in H as ->. Qed.

(** ** Running the accessors *)

Lemma run_ret {A} (a : A) w : ret a w = (a, w).
Proof. reflexivity. Qed.

Lemma run_bind {A B} (c : M A) (k : A -> M B) w :
  bind c k w = k (fst (c w)) (snd (c w)).
Proof. unfold bind. now destruct (c w). Qed.

Lemma run_readl a w :
  readl a w = (wrap (mem w a),
               {| mem := mem w; log := log w ++ [EvRead a (wrap (mem w a))] |}).
Proof. reflexivity. Qed.

Lemma run_writel v a w :
  writel v a w = (tt, {| mem := upd (mem w) a (wrap v);
                         log := log w ++ [EvWrite a (wrap v)] |}).
Proof. reflexivity. Qed.

Lemma run_clrsetbits a clear set w :
  clrsetbits_le32 a clear set w =
  let v := wrap (mem w a) in
  let v' := wrap (Z.lor (Z.land v (Z.lnot clear)) set) in
  (tt, {| mem := upd (mem w) a v';
          log := log w ++ [EvRead a v; EvWrite a v'] |}).
Proof.
  unfold clrsetbits_le32. rewrite run_bind, run_readl, run_writel. cbn.
  now rewrite <- app_assoc.
Qed.

Lemma run_setbits a set w :
  setbits_le32 a set w =
  let v := wrap (mem w a) in
  let v' := wrap (Z.lor v set) in
  (tt, {| mem := upd (mem w) a v';
          log := log w ++ [EvRead a v; EvWrite a v'] |}).
Proof.
  unfold setbits_le32. rewrite run_bind, run_readl, run_writel. cbn.
  now rewrite <- app_assoc.
Qed.

Lemma run_clrbits a clear w :
  clrbits_le32 a clear w =
  let v := wrap (mem w a) in
  let v' := wrap (Z.land v (Z.lnot clear)) in
  (tt, {| mem := upd (mem w) a v';
          log := log w ++ [EvRead a v; EvWrite a v'] |}).
Proof.
  unfold clrbits_le32. rewrite run_bind, run_readl, run_writel. cbn.
  now rewrite <- app_assoc.
Qed.

(** Distinct offsets of one block are distinct addresses. *)
Ltac offsets :=
  unfold USB2_INT_ENABLE, USB2_USBCTR, USB2_SPD_RSM_TIMSET, USB2_OC_TIMSET,
    USB2_COMMCTRL, USB2_OBINTSTA, USB2_OBINTEN, USB2_VBCTRL, USB2_LINECTRL1,
    USB2_ADPCTRL in *; lia.

Ltac lookup :=
  repeat first [ rewrite upd_same | rewrite upd_other by offsets ].

(** Project an explicit list of events on one register. *)
Ltac project :=
  repeat rewrite writes_to_app; cbn [writes_to];
  repeat first [ rewrite Z.eqb_refl
               | rewrite (proj2 (Z.eqb_neq _ _)) by offsets ].

(** Rewrite with a run lemma whose statement names its words by [let]. *)
Ltac run_with L :=
  let H := fresh "Hrun" in
  pose proof L as H; cbv zeta in H; rewrite H; clear H;
  cbn [fst snd mem log].

(** One step of symbolic execution: push the world through the next
    accessor and tidy the record projections and the log. *)
Ltac step :=
  first [ rewrite run_bind
        | rewrite run_writel | rewrite run_readl
        | rewrite run_setbits | rewrite run_clrbits | rewrite run_clrsetbits
        | rewrite run_ret ];
  cbv zeta; cbn [fst snd mem log].

Ltac run := repeat step; repeat rewrite <- app_assoc; cbn [app]; lookup; unwrap.

Section Lifecycle.

Context {udevice : Type}.
Variable regulator_set_enable : udevice -> bool -> Z.
Variable priv : rcar_gen3_phy udevice.

Local Abbreviation base := (regs priv).

(** C7: from any register state, init stores 0 to INT_ENABLE, then
    0x014e029b to SPD_RSM_TIMSET, then 0x000209ab to OC_TIMSET; these three
    stores are all it does, the three registers hold those values
    afterwards, and it returns 0. *)
Theorem init_programs_constants (w : world) :
  let r := rcar_gen3_phy_phy_init priv w in
  fst r = 0 /\
  log (snd r) = log w ++ [EvWrite (base + USB2_INT_ENABLE) 0;
                          EvWrite (base + USB2_SPD_RSM_TIMSET) 0x014e029b;
                          EvWrite (base + USB2_OC_TIMSET) 0x000209ab] /\
  mem (snd r) (base + USB2_INT_ENABLE) = 0 /\
  mem (snd r) (base + USB2_SPD_RSM_TIMSET) = 0x014e029b /\
  mem (snd r) (base + USB2_OC_TIMSET) = 0x000209ab.
Proof.
  unfold rcar_gen3_phy_phy_init. run.
  repeat split.
Qed.

(** C8: init followed at once by exit leaves INT_ENABLE at 0 (and both
    return 0). *)
Theorem init_then_exit_int_enable (w : world) :
  let r1 := rcar_gen3_phy_phy_init priv w in
  let r2 := rcar_gen3_phy_phy_exit priv (snd r1) in
  fst r1 = 0 /\ fst r2 = 0 /\
  mem (snd r2) (base + USB2_INT_ENABLE) = 0.
Proof.
  unfold rcar_gen3_phy_phy_init, rcar_gen3_phy_phy_exit. run.
  repeat split.
Qed.

(** C5: when a VBUS regulator is present and regulator_set_enable fails,
    power_on returns that result and has done nothing but the regulator
    call: the register file is the one it started from and no register,
    USBCTR included, was stored to. *)
Theorem power_on_regulator_failure (supply : udevice) (w : world) :
  vbus_supply priv = Some supply ->
  regulator_set_enable supply true <> 0 ->
  let r := rcar_gen3_phy_phy_power_on regulator_set_enable priv w in
  fst r = regulator_set_enable supply true /\
  mem (snd r) = mem w /\
  log (snd r) =
    log w ++ [EvRegulator true (regulator_set_enable supply true)] /\
  (forall a, writes_to a (log (snd r)) = writes_to a (log w)).
Proof.
  intros Hsup Hfail. cbv zeta.
  unfold rcar_gen3_phy_phy_power_on. rewrite Hsup. cbv zeta.
  rewrite run_bind. unfold regulator_call. cbn [fst snd].
  apply Z.eqb_neq in Hfail. rewrite Hfail. cbn [negb].
  rewrite run_ret. unfold emit. cbn [fst snd mem log].
  repeat split. intros a. rewrite writes_to_app. cbn [writes_to].
  apply app_nil_r.
Qed.

(** C6: without a VBUS regulator power_on calls no regulator and returns 0
    after two read-modify-writes of USBCTR: the first store has PLL_RST
    (bit 1) set, the second has it clear, and there is no other store to
    USBCTR. *)
Theorem power_on_without_regulator (w : world) :
  vbus_supply priv = None ->
  let r := rcar_gen3_phy_phy_power_on regulator_set_enable priv w in
  let ctr := wrap (mem w (base + USB2_USBCTR)) in
  let ctr_set := Z.lor ctr USB2_USBCTR_PLL_RST in
  let ctr_clr := Z.land ctr_set (Z.lnot USB2_USBCTR_PLL_RST) in
  fst r = 0 /\
  log (snd r) = log w ++ [EvRead (base + USB2_USBCTR) ctr;
                          EvWrite (base + USB2_USBCTR) ctr_set;
                          EvRead (base + USB2_USBCTR) ctr_set;
                          EvWrite (base + USB2_USBCTR) ctr_clr] /\
  regulator_calls (log (snd r)) = regulator_calls (log w) /\
  writes_to (base + USB2_USBCTR) (log (snd r)) =
    writes_to (base + USB2_USBCTR) (log w) ++ [ctr_set; ctr_clr] /\
  Z.testbit ctr_set 1 = true /\ Z.testbit ctr_clr 1 = false.
Proof.
  intros Hsup. cbv zeta.
  unfold rcar_gen3_phy_phy_power_on. rewrite Hsup. cbv zeta. run.
  rewrite regulator_calls_app. cbn [regulator_calls]. rewrite app_nil_r.
  project. unfold USB2_USBCTR_PLL_RST.
  repeat split; bits.
Qed.

End Lifecycle.

(** ** Mode selection *)

Section SetMode.

Context {udevice : Type}.
Variable EINVAL : Z.
Variable priv : rcar_gen3_phy udevice.

Local Abbreviation base := (regs priv).

(** The host branch: three read-modify-writes, in this order. *)
Lemma set_mode_host_run submode w :
  let comm := wrap (mem w (base + USB2_COMMCTRL)) in
  let line := wrap (mem w (base + USB2_LINECTRL1)) in
  let adp := wrap (mem w (base + USB2_ADPCTRL)) in
  let comm' := Z.land comm (Z.lnot USB2_COMMCTRL_OTG_PERI) in
  let line' := Z.lor line (Z.lor USB2_LINECTRL1_DP_RPD USB2_LINECTRL1_DM_RPD) in
  let adp' := Z.lor adp USB2_ADPCTRL_DRVVBUS in
  rcar_gen3_phy_phy_set_mode EINVAL priv PHY_MODE_USB_HOST submode w =
  (0, {| mem := upd (upd (upd (mem w) (base + USB2_COMMCTRL) comm')
                         (base + USB2_LINECTRL1) line')
                    (base + USB2_ADPCTRL) adp';
         log := log w ++ [EvRead (base + USB2_COMMCTRL) comm;
                          EvWrite (base + USB2_COMMCTRL) comm';
                          EvRead (base + USB2_LINECTRL1) line;
                          EvWrite (base + USB2_LINECTRL1) line';
                          EvRead (base + USB2_ADPCTRL) adp;
                          EvWrite (base + USB2_ADPCTRL) adp'] |}).
Proof.
  unfold rcar_gen3_phy_phy_set_mode. run. reflexivity.
Qed.

(** The device branch. *)
Lemma set_mode_device_run submode w :
  let comm := wrap (mem w (base + USB2_COMMCTRL)) in
  let line := wrap (mem w (base + USB2_LINECTRL1)) in
  let adp := wrap (mem w (base + USB2_ADPCTRL)) in
  let comm' := Z.lor comm USB2_COMMCTRL_OTG_PERI in
  let line' :=
    Z.lor (Z.land line
             (Z.lnot (Z.lor USB2_LINECTRL1_DP_RPD USB2_LINECTRL1_DM_RPD)))
          USB2_LINECTRL1_DM_RPD in
  let adp' := Z.land adp (Z.lnot USB2_ADPCTRL_DRVVBUS) in
  rcar_gen3_phy_phy_set_mode EINVAL priv PHY_MODE_USB_DEVICE submode w =
  (0, {| mem := upd (upd (upd (mem w) (base + USB2_COMMCTRL) comm')
                         (base + USB2_LINECTRL1) line')
                    (base + USB2_ADPCTRL) adp';
         log := log w ++ [EvRead (base + USB2_COMMCTRL) comm;
                          EvWrite (base + USB2_COMMCTRL) comm';
                          EvRead (base + USB2_LINECTRL1) line;
                          EvWrite (base + USB2_LINECTRL1) line';
                          EvRead (base + USB2_ADPCTRL) adp;
                          EvWrite (base + USB2_ADPCTRL) adp'] |}).
Proof.
  unfold rcar_gen3_phy_phy_set_mode. run. reflexivity.
Qed.

(** Any other mode: no bus access at all. *)
Lemma set_mode_other_run literal submode w :
  rcar_gen3_phy_phy_set_mode EINVAL priv (PHY_MODE_OTHER literal) submode w = (- EINVAL, w).
Proof. reflexivity. Qed.

(** The initialization block, run from [w]. *)
Lemma otg_arm_run w :
  let vb := wrap (mem w (base + USB2_VBCTRL)) in
  let oben := wrap (mem w (base + USB2_OBINTEN)) in
  let adp := wrap (mem w (base + USB2_ADPCTRL)) in
  let line := wrap (mem w (base + USB2_LINECTRL1)) in
  let inten := Z.lor (Z.lor USB2_INT_ENABLE_UCOM_INTEN
                            USB2_INT_ENABLE_USBH_INTB_EN)
                     USB2_INT_ENABLE_USBH_INTA_EN in
  let obint := Z.lor USB2_OBINT_SESSVLDCHG USB2_OBINT_IDDIGCHG in
  let vb' := Z.lor vb USB2_VBCTRL_DRVVBUSSEL in
  let oben' := Z.lor oben obint in
  let adp' := Z.lor adp USB2_ADPCTRL_IDPULLUP in
  let line' :=
    Z.lor (Z.land line
             (Z.lnot (Z.lor (Z.lor (Z.lor USB2_LINECTRL1_DP_RPD
                                          USB2_LINECTRL1_DM_RPD)
                                   USB2_LINECTRL1_DPRPD_EN)
                            USB2_LINECTRL1_DMRPD_EN)))
          (Z.lor USB2_LINECTRL1_DPRPD_EN USB2_LINECTRL1_DMRPD_EN) in
  otg_arm base w =
  (tt, {| mem := upd (upd (upd (upd (upd (upd (mem w)
                    (base + USB2_INT_ENABLE) inten)
                    (base + USB2_VBCTRL) vb')
                    (base + USB2_OBINTSTA) obint)
                    (base + USB2_OBINTEN) oben')
                    (base + USB2_ADPCTRL) adp')
                    (base + USB2_LINECTRL1) line';
          log := log w ++ [EvWrite (base + USB2_INT_ENABLE) inten;
                           EvRead (base + USB2_VBCTRL) vb;
                           EvWrite (base + USB2_VBCTRL) vb';
                           EvWrite (base + USB2_OBINTSTA) obint;
                           EvRead (base + USB2_OBINTEN) oben;
                           EvWrite (base + USB2_OBINTEN) oben';
                           EvRead (base + USB2_ADPCTRL) adp;
                           EvWrite (base + USB2_ADPCTRL) adp';
                           EvRead (base + USB2_LINECTRL1) line;
                           EvWrite (base + USB2_LINECTRL1) line'] |}).
Proof.
  unfold otg_arm. run. reflexivity.
Qed.

Lemma otg_resolve_cases adpctrl :
  otg_resolve adpctrl = PHY_MODE_USB_DEVICE \/
  otg_resolve adpctrl = PHY_MODE_USB_HOST.
Proof. unfold otg_resolve. cbv zeta. destruct (_ =? _); auto. Qed.

Lemma run_otg_test adpctrl w :
  (if Z.land adpctrl (Z.lor USB2_ADPCTRL_IDDIG USB2_ADPCTRL_OTGSESSVLD) =?
      Z.lor USB2_ADPCTRL_IDDIG USB2_ADPCTRL_OTGSESSVLD
   then ret PHY_MODE_USB_DEVICE else ret PHY_MODE_USB_HOST) w =
  (otg_resolve adpctrl, w).
Proof. unfold otg_resolve. cbv zeta. now destruct (_ =? _). Qed.

(** The OTG branch is: the initialization block when [submode] is not 0,
    one load of ADPCTRL, then the branch of the mode that the loaded word
    picks.  That branch ignores its submode. *)
Lemma set_mode_otg_unfold submode submode' w :
  let ws := otg_sampled base submode w in
  let adpctrl := wrap (mem ws (base + USB2_ADPCTRL)) in
  rcar_gen3_phy_phy_set_mode EINVAL priv PHY_MODE_USB_OTG submode w =
  rcar_gen3_phy_phy_set_mode EINVAL priv (otg_resolve adpctrl) submode'
           (emit (EvRead (base + USB2_ADPCTRL) adpctrl) ws).
Proof.
  cbv zeta. set (ws := otg_sampled base submode w).
  set (adpctrl := wrap (mem ws (base + USB2_ADPCTRL))).
  set (ws' := emit (EvRead (base + USB2_ADPCTRL) adpctrl) ws).
  assert (Hl : rcar_gen3_phy_phy_set_mode EINVAL priv PHY_MODE_USB_OTG submode w =
               rcar_gen3_phy_phy_set_mode EINVAL priv (otg_resolve adpctrl) 0 ws').
  { unfold rcar_gen3_phy_phy_set_mode; cbv zeta.
    rewrite (run_bind _ _ w), (run_bind _ _ w).
    replace (snd ((if negb (submode =? 0)
                   then _ else ret tt) w)) with ws
      by (unfold ws, otg_sampled, otg_arm; now destruct (negb (submode =? 0))).
    rewrite (run_bind _ _ ws), run_readl, run_otg_test. cbn [fst snd].
    fold adpctrl. fold (emit (EvRead (base + USB2_ADPCTRL) adpctrl) ws).
    fold ws'.
    destruct (otg_resolve_cases adpctrl) as [E | E]; rewrite E; reflexivity. }
  rewrite Hl.
  destruct (otg_resolve_cases adpctrl) as [E | E]; rewrite E; reflexivity.
Qed.

(** C1: set_mode(OTG, submode) resolves the mode from one load of ADPCTRL.
    The call is the branch of the resolved mode, started in the world in
    which that load happened: DEVICE when bits 19 (IDDIG) and 20
    (OTGSESSVLD) of the loaded word are both set, HOST otherwise.  With
    submode 0 the load is the first access of the call, and in every case
    the two bits of the loaded word are those the register had when the
    call was made.  The world has no component that could remember an
    earlier resolution. *)
Theorem set_mode_otg_resolves_from_snapshot submode submode' w :
  let ws := otg_sampled base submode w in
  let adpctrl := wrap (mem ws (base + USB2_ADPCTRL)) in
  let resolved :=
    if Z.testbit adpctrl 19 && Z.testbit adpctrl 20
    then PHY_MODE_USB_DEVICE else PHY_MODE_USB_HOST in
  rcar_gen3_phy_phy_set_mode EINVAL priv PHY_MODE_USB_OTG submode w =
    rcar_gen3_phy_phy_set_mode EINVAL priv resolved submode'
             (emit (EvRead (base + USB2_ADPCTRL) adpctrl) ws) /\
  otg_sampled base 0 w = w /\
  Z.testbit adpctrl 19 = Z.testbit (mem w (base + USB2_ADPCTRL)) 19 /\
  Z.testbit adpctrl 20 = Z.testbit (mem w (base + USB2_ADPCTRL)) 20.
Proof.
  cbv zeta. split; [| split; [reflexivity |]].
  - rewrite <- otg_resolve_bits. apply set_mode_otg_unfold.
  - unfold otg_sampled. destruct (negb (submode =? 0)).
    + run_with (otg_arm_run w). lookup.
      unfold USB2_ADPCTRL_IDPULLUP. split; bits.
    + split; bits.
Qed.

(** C2: set_mode(OTG, 0) in a state where ADPCTRL has IDDIG (bit 19) and
    OTGSESSVLD (bit 20) set returns 0 after exactly seven bus accesses:
    the load of ADPCTRL and the three read-modify-writes of the device
    branch.  Afterwards OTG_PERI (bit 31 of COMMCTRL) is set, DM_RPD (bit
    16 of LINECTRL1) is set, DP_RPD (bit 18) is clear and DRVVBUS (bit 4
    of ADPCTRL) is clear.  Nothing of the initialization block happens:
    INT_ENABLE, VBCTRL, OBINTSTA and OBINTEN are not written and keep
    their values, and IDPULLUP (bit 5 of ADPCTRL) and the two RPD_EN bits
    (19 and 17 of LINECTRL1) keep theirs. *)
Theorem set_mode_otg_poll_device w :
  Z.testbit (mem w (base + USB2_ADPCTRL)) 19 = true ->
  Z.testbit (mem w (base + USB2_ADPCTRL)) 20 = true ->
  let r := rcar_gen3_phy_phy_set_mode EINVAL priv PHY_MODE_USB_OTG 0 w in
  let comm := wrap (mem w (base + USB2_COMMCTRL)) in
  let line := wrap (mem w (base + USB2_LINECTRL1)) in
  let adp := wrap (mem w (base + USB2_ADPCTRL)) in
  let comm' := Z.lor comm USB2_COMMCTRL_OTG_PERI in
  let line' :=
    Z.lor (Z.land line
             (Z.lnot (Z.lor USB2_LINECTRL1_DP_RPD USB2_LINECTRL1_DM_RPD)))
          USB2_LINECTRL1_DM_RPD in
  let adp' := Z.land adp (Z.lnot USB2_ADPCTRL_DRVVBUS) in
  fst r = 0 /\
  log (snd r) = log w ++ [EvRead (base + USB2_ADPCTRL) adp;
                          EvRead (base + USB2_COMMCTRL) comm;
                          EvWrite (base + USB2_COMMCTRL) comm';
                          EvRead (base + USB2_LINECTRL1) line;
                          EvWrite (base + USB2_LINECTRL1) line';
                          EvRead (base + USB2_ADPCTRL) adp;
                          EvWrite (base + USB2_ADPCTRL) adp'] /\
  mem (snd r) = upd (upd (upd (mem w) (base + USB2_COMMCTRL) comm')
                         (base + USB2_LINECTRL1) line')
                    (base + USB2_ADPCTRL) adp' /\
  (Z.testbit (mem (snd r) (base + USB2_COMMCTRL)) 31 = true /\
   Z.testbit (mem (snd r) (base + USB2_LINECTRL1)) 16 = true /\
   Z.testbit (mem (snd r) (base + USB2_LINECTRL1)) 18 = false /\
   Z.testbit (mem (snd r) (base + USB2_ADPCTRL)) 4 = false) /\
  (mem (snd r) (base + USB2_INT_ENABLE) = mem w (base + USB2_INT_ENABLE) /\
   mem (snd r) (base + USB2_VBCTRL) = mem w (base + USB2_VBCTRL) /\
   mem (snd r) (base + USB2_OBINTSTA) = mem w (base + USB2_OBINTSTA) /\
   mem (snd r) (base + USB2_OBINTEN) = mem w (base + USB2_OBINTEN)) /\
  (Z.testbit (mem (snd r) (base + USB2_ADPCTRL)) 5 =
     Z.testbit (mem w (base + USB2_ADPCTRL)) 5 /\
   Z.testbit (mem (snd r) (base + USB2_LINECTRL1)) 19 =
     Z.testbit (mem w (base + USB2_LINECTRL1)) 19 /\
   Z.testbit (mem (snd r) (base + USB2_LINECTRL1)) 17 =
     Z.testbit (mem w (base + USB2_LINECTRL1)) 17).
Proof.
  intros H19 H20. cbv zeta.
  run_with (set_mode_otg_unfold 0 0 w).
  change (otg_sampled base 0 w) with w.
  rewrite otg_resolve_bits, !testbit_wrap, H19, H20 by lia. cbn [andb].
  run_with (set_mode_device_run 0
              (emit (EvRead (base + USB2_ADPCTRL)
                            (wrap (mem w (base + USB2_ADPCTRL)))) w)).
  unfold emit; cbn [mem log]. rewrite <- app_assoc. cbn [app]. lookup.
  unfold USB2_COMMCTRL_OTG_PERI, USB2_LINECTRL1_DP_RPD,
    USB2_LINECTRL1_DM_RPD, USB2_ADPCTRL_DRVVBUS.
  repeat split; bits.
Qed.

Lemma otg_sampled_armed submode w :
  submode <> 0 -> otg_sampled base submode w = snd (otg_arm base w).
Proof.
  intros Hs. unfold otg_sampled. apply Z.eqb_neq in Hs. now rewrite Hs.
Qed.

(** Symbolic execution of set_mode(OTG, submode) with submode not 0, up to
    the choice of the branch. *)
Ltac run_armed submode w Hs :=
  cbv zeta; run_with (set_mode_otg_unfold submode 0 w);
  rewrite (otg_sampled_armed submode w Hs);
  run_with (otg_arm_run w); lookup; unwrap.

Ltac run_branch E :=
  rewrite E;
  first [ run_with (set_mode_device_run 0) | run_with (set_mode_host_run 0) ];
  unfold emit; cbn [mem log]; repeat rewrite <- app_assoc; cbn [app];
  lookup; unwrap.

(** C3: set_mode(OTG, submode) with submode not 0 starts with the
    initialization block: ten bus accesses, among them the store that
    sets SESSVLDCHG and IDDIGCHG in OBINTEN, the store that sets IDPULLUP
    in ADPCTRL and the store that sets DPRPD_EN and DMRPD_EN in LINECTRL1.
    Only then ADPCTRL is loaded for the resolution (the word loaded already
    has IDPULLUP set), and the call continues as the HOST or the DEVICE
    branch picked by that word and returns 0.  The block runs once:
    OBINTEN is stored to once in the call, ADPCTRL and LINECTRL1 twice, the
    second store being the one of the resolved branch, and the armed bits
    are still set when the call returns. *)
Theorem set_mode_otg_arms_then_resolves submode w :
  submode <> 0 ->
  let r := rcar_gen3_phy_phy_set_mode EINVAL priv PHY_MODE_USB_OTG submode w in
  let wa := snd (otg_arm base w) in
  let vb := wrap (mem w (base + USB2_VBCTRL)) in
  let oben := wrap (mem w (base + USB2_OBINTEN)) in
  let adp := wrap (mem w (base + USB2_ADPCTRL)) in
  let line := wrap (mem w (base + USB2_LINECTRL1)) in
  let inten := Z.lor (Z.lor USB2_INT_ENABLE_UCOM_INTEN
                            USB2_INT_ENABLE_USBH_INTB_EN)
                     USB2_INT_ENABLE_USBH_INTA_EN in
  let obint := Z.lor USB2_OBINT_SESSVLDCHG USB2_OBINT_IDDIGCHG in
  let oben' := Z.lor oben obint in
  let adp' := Z.lor adp USB2_ADPCTRL_IDPULLUP in
  let line' :=
    Z.lor (Z.land line
             (Z.lnot (Z.lor (Z.lor (Z.lor USB2_LINECTRL1_DP_RPD
                                          USB2_LINECTRL1_DM_RPD)
                                   USB2_LINECTRL1_DPRPD_EN)
                            USB2_LINECTRL1_DMRPD_EN)))
          (Z.lor USB2_LINECTRL1_DPRPD_EN USB2_LINECTRL1_DMRPD_EN) in
  log wa = log w ++ [EvWrite (base + USB2_INT_ENABLE) inten;
                     EvRead (base + USB2_VBCTRL) vb;
                     EvWrite (base + USB2_VBCTRL)
                             (Z.lor vb USB2_VBCTRL_DRVVBUSSEL);
                     EvWrite (base + USB2_OBINTSTA) obint;
                     EvRead (base + USB2_OBINTEN) oben;
                     EvWrite (base + USB2_OBINTEN) oben';
                     EvRead (base + USB2_ADPCTRL) adp;
                     EvWrite (base + USB2_ADPCTRL) adp';
                     EvRead (base + USB2_LINECTRL1) line;
                     EvWrite (base + USB2_LINECTRL1) line'] /\
  r = rcar_gen3_phy_phy_set_mode EINVAL priv (otg_resolve adp') 0
               (emit (EvRead (base + USB2_ADPCTRL) adp') wa) /\
  (otg_resolve adp' = PHY_MODE_USB_DEVICE \/
   otg_resolve adp' = PHY_MODE_USB_HOST) /\
  fst r = 0 /\
  writes_to (base + USB2_OBINTEN) (log (snd r)) =
    writes_to (base + USB2_OBINTEN) (log w) ++ [oben'] /\
  (exists adp_branch line_branch,
     writes_to (base + USB2_ADPCTRL) (log (snd r)) =
       writes_to (base + USB2_ADPCTRL) (log w) ++ [adp'; adp_branch] /\
     writes_to (base + USB2_LINECTRL1) (log (snd r)) =
       writes_to (base + USB2_LINECTRL1) (log w) ++ [line'; line_branch]) /\
  (Z.testbit oben' 12 = true /\ Z.testbit oben' 11 = true /\
   Z.testbit adp' 5 = true /\
   Z.testbit line' 19 = true /\ Z.testbit line' 17 = true) /\
  (Z.testbit (mem (snd r) (base + USB2_OBINTEN)) 12 = true /\
   Z.testbit (mem (snd r) (base + USB2_OBINTEN)) 11 = true /\
   Z.testbit (mem (snd r) (base + USB2_ADPCTRL)) 5 = true /\
   Z.testbit (mem (snd r) (base + USB2_LINECTRL1)) 19 = true /\
   Z.testbit (mem (snd r) (base + USB2_LINECTRL1)) 17 = true).
Proof.
  intros Hs.
  assert (Hsnap : wrap (mem (snd (otg_arm base w)) (base + USB2_ADPCTRL)) =
                  Z.lor (wrap (mem w (base + USB2_ADPCTRL)))
                        USB2_ADPCTRL_IDPULLUP).
  { run_with (otg_arm_run w). lookup. unwrap. reflexivity. }
  cbv zeta. split; [| split; [| split]].
  - run_with (otg_arm_run w). reflexivity.
  - pose proof (set_mode_otg_unfold submode 0 w) as H. cbv zeta in H.
    rewrite (otg_sampled_armed submode w Hs), Hsnap in H. exact H.
  - apply otg_resolve_cases.
  - run_armed submode w Hs.
    unfold USB2_OBINT_SESSVLDCHG, USB2_OBINT_IDDIGCHG, USB2_ADPCTRL_IDPULLUP,
      USB2_LINECTRL1_DP_RPD, USB2_LINECTRL1_DM_RPD, USB2_LINECTRL1_DPRPD_EN,
      USB2_LINECTRL1_DMRPD_EN, USB2_COMMCTRL_OTG_PERI, USB2_ADPCTRL_DRVVBUS.
    match goal with
    | |- context [otg_resolve ?v] =>
        destruct (otg_resolve_cases v) as [E | E]
    end; run_branch E; project;
    (split; [reflexivity |]); (split; [reflexivity |]);
    (split; [eexists; eexists; split; reflexivity |]);
    repeat split; bits.
Qed.

(** C10: with submode not 0, set_mode(OTG, submode) also stores to
    INT_ENABLE the word made of exactly UCOM_INTEN, USBH_INTB_EN and
    USBH_INTA_EN, so whatever the register held (the 0 of init included)
    is gone; sets DRVVBUSSEL (bit 8) in VBCTRL; stores to OBINTSTA the word
    made of exactly SESSVLDCHG and IDDIGCHG; and the word the block stores
    to LINECTRL1 has DP_RPD and DM_RPD (bits 18 and 16) clear and DPRPD_EN
    and DMRPD_EN (bits 19 and 17) set.  Each of INT_ENABLE, VBCTRL and OBINTSTA is stored to
    once in the call and holds the stored word when it returns. *)
Theorem set_mode_otg_arm_extra_writes submode w :
  submode <> 0 ->
  let r := rcar_gen3_phy_phy_set_mode EINVAL priv PHY_MODE_USB_OTG submode w in
  let vb := wrap (mem w (base + USB2_VBCTRL)) in
  let line := wrap (mem w (base + USB2_LINECTRL1)) in
  let inten := Z.lor (Z.lor USB2_INT_ENABLE_UCOM_INTEN
                            USB2_INT_ENABLE_USBH_INTB_EN)
                     USB2_INT_ENABLE_USBH_INTA_EN in
  let obint := Z.lor USB2_OBINT_SESSVLDCHG USB2_OBINT_IDDIGCHG in
  let vb' := Z.lor vb USB2_VBCTRL_DRVVBUSSEL in
  let line' :=
    Z.lor (Z.land line
             (Z.lnot (Z.lor (Z.lor (Z.lor USB2_LINECTRL1_DP_RPD
                                          USB2_LINECTRL1_DM_RPD)
                                   USB2_LINECTRL1_DPRPD_EN)
                            USB2_LINECTRL1_DMRPD_EN)))
          (Z.lor USB2_LINECTRL1_DPRPD_EN USB2_LINECTRL1_DMRPD_EN) in
  (writes_to (base + USB2_INT_ENABLE) (log (snd r)) =
     writes_to (base + USB2_INT_ENABLE) (log w) ++ [inten] /\
   mem (snd r) (base + USB2_INT_ENABLE) = inten /\ inten = 0xe) /\
  (writes_to (base + USB2_VBCTRL) (log (snd r)) =
     writes_to (base + USB2_VBCTRL) (log w) ++ [vb'] /\
   mem (snd r) (base + USB2_VBCTRL) = vb' /\
   Z.testbit vb' 8 = true) /\
  (writes_to (base + USB2_OBINTSTA) (log (snd r)) =
     writes_to (base + USB2_OBINTSTA) (log w) ++ [obint] /\
   mem (snd r) (base + USB2_OBINTSTA) = obint /\ obint = 0x1800) /\
  (exists line_branch,
     writes_to (base + USB2_LINECTRL1) (log (snd r)) =
       writes_to (base + USB2_LINECTRL1) (log w) ++ [line'; line_branch]) /\
  (Z.testbit line' 18 = false /\ Z.testbit line' 16 = false /\
   Z.testbit line' 19 = true /\ Z.testbit line' 17 = true).
Proof.
  intros Hs. run_armed submode w Hs.
  match goal with
  | |- context [otg_resolve ?v] =>
      destruct (otg_resolve_cases v) as [E | E]
  end; run_branch E; project;
  unfold USB2_VBCTRL_DRVVBUSSEL, USB2_LINECTRL1_DP_RPD,
    USB2_LINECTRL1_DM_RPD, USB2_LINECTRL1_DPRPD_EN, USB2_LINECTRL1_DMRPD_EN;
  (split; [repeat split |]); (split; [repeat split; bits |]);
  (split; [repeat split |]); (split; [eexists; reflexivity |]);
  repeat split; bits.
Qed.

(** C4: set_mode(HOST, submode) returns 0 and leaves OTG_PERI (bit 31 of
    COMMCTRL) clear, DP_RPD and DM_RPD (bits 18 and 16 of LINECTRL1) set
    and DRVVBUS (bit 4 of ADPCTRL) set; every other bit [i] of these three
    32-bit registers has the value it had before the call. *)
Theorem set_mode_host_preserves_other_bits submode w i :
  0 <= i < 32 ->
  let r := rcar_gen3_phy_phy_set_mode EINVAL priv PHY_MODE_USB_HOST submode w in
  fst r = 0 /\
  Z.testbit (mem (snd r) (base + USB2_COMMCTRL)) 31 = false /\
  Z.testbit (mem (snd r) (base + USB2_LINECTRL1)) 18 = true /\
  Z.testbit (mem (snd r) (base + USB2_LINECTRL1)) 16 = true /\
  Z.testbit (mem (snd r) (base + USB2_ADPCTRL)) 4 = true /\
  (i <> 31 ->
   Z.testbit (mem (snd r) (base + USB2_COMMCTRL)) i =
   Z.testbit (mem w (base + USB2_COMMCTRL)) i) /\
  (i <> 18 -> i <> 16 ->
   Z.testbit (mem (snd r) (base + USB2_LINECTRL1)) i =
   Z.testbit (mem w (base + USB2_LINECTRL1)) i) /\
  (i <> 4 ->
   Z.testbit (mem (snd r) (base + USB2_ADPCTRL)) i =
   Z.testbit (mem w (base + USB2_ADPCTRL)) i).
Proof.
  intros Hi. cbv zeta. run_with (set_mode_host_run submode w). lookup.
  unfold USB2_COMMCTRL_OTG_PERI, USB2_LINECTRL1_DP_RPD,
    USB2_LINECTRL1_DM_RPD, USB2_ADPCTRL_DRVVBUS.
  repeat split; try intros; bits.
Qed.

(** C9: set_mode with submode 0 and a mode that is none of HOST, DEVICE
    and OTG returns -EINVAL, a failure, and leaves the world as it was:
    the register file is the same and the log has no new access. *)
Theorem set_mode_unknown_mode_rejected mode w :
  0 < EINVAL ->
  mode <> PHY_MODE_USB_HOST ->
  mode <> PHY_MODE_USB_DEVICE ->
  mode <> PHY_MODE_USB_OTG ->
  let r := rcar_gen3_phy_phy_set_mode EINVAL priv mode 0 w in
  fst r = - EINVAL /\ fst r <> 0 /\
  mem (snd r) = mem w /\ log (snd r) = log w.
Proof.
  intros He Hh Hd Ho. destruct mode as [| | | literal]; try contradiction.
  cbv zeta. rewrite set_mode_other_run. cbn [fst snd].
  repeat split; lia.
Qed.

End SetMode.

(** ** The statements at concrete inputs *)

Example init_from_zero :
  log (snd (rcar_gen3_phy_phy_init phy_no_supply world_zero)) =
  [EvWrite 0xee080200 0; EvWrite 0xee08030c 0x014e029b;
   EvWrite 0xee080310 0x000209ab].
Proof. reflexivity. Qed.

Example power_on_from_zero :
  rcar_gen3_phy_phy_power_on regulator_ok phy_with_supply world_zero =
  (0, {| mem := mem (snd (rcar_gen3_phy_phy_power_on regulator_ok
                            phy_with_supply world_zero));
         log := [EvRegulator true 0;
                 EvRead 0xee08020c 0; EvWrite 0xee08020c 2;
                 EvRead 0xee08020c 2; EvWrite 0xee08020c 0] |}).
Proof. reflexivity. Qed.

Example set_mode_host_from_zero :
  log (snd (rcar_gen3_phy_phy_set_mode 22 phy_no_supply
              PHY_MODE_USB_HOST 0 world_zero)) =
  [EvRead 0xee080800 0; EvWrite 0xee080800 0;
   EvRead 0xee080810 0; EvWrite 0xee080810 0x50000;
   EvRead 0xee080830 0; EvWrite 0xee080830 0x10].
Proof. vm_compute. reflexivity. Qed.

Example set_mode_otg_poll_device_cable :
  log (snd (rcar_gen3_phy_phy_set_mode 22 phy_no_supply
              PHY_MODE_USB_OTG 0 world_device_cable)) =
  [EvRead 0xee080830 0x180000;
   EvRead 0xee080800 0; EvWrite 0xee080800 0x80000000;
   EvRead 0xee080810 0; EvWrite 0xee080810 0x10000;
   EvRead 0xee080830 0x180000; EvWrite 0xee080830 0x180000].
Proof. vm_compute. reflexivity. Qed.

Example set_mode_otg_arm_from_zero :
  log (snd (rcar_gen3_phy_phy_set_mode 22 phy_no_supply
              PHY_MODE_USB_OTG 1 world_zero)) =
  [EvWrite 0xee080200 0xe;
   EvRead 0xee08080c 0; EvWrite 0xee08080c 0x100;
   EvWrite 0xee080804 0x1800;
   EvRead 0xee080808 0; EvWrite 0xee080808 0x1800;
   EvRead 0xee080830 0; EvWrite 0xee080830 0x20;
   EvRead 0xee080810 0; EvWrite 0xee080810 0xa0000;
   EvRead 0xee080830 0x20;
   EvRead 0xee080800 0; EvWrite 0xee080800 0;
   EvRead 0xee080810 0xa0000; EvWrite 0xee080810 0xf0000;
   EvRead 0xee080830 0x20; EvWrite 0xee080830 0x30].
Proof. vm_compute. reflexivity. Qed.

Lemma set_mode_otg_poll_device_witness :
  (Z.testbit (mem world_device_cable (phy_base + USB2_ADPCTRL)) 19 = true /\
   Z.testbit (mem world_device_cable (phy_base + USB2_ADPCTRL)) 20 = true) /\
  fst (rcar_gen3_phy_phy_set_mode 22 phy_no_supply PHY_MODE_USB_OTG 0
         world_device_cable) = 0.
Proof.
  split; [split; reflexivity |].
  apply (set_mode_otg_poll_device 22 phy_no_supply world_device_cable);
    reflexivity.
Defined.

Lemma set_mode_otg_arms_then_resolves_witness :
  1 <> 0 /\
  fst (rcar_gen3_phy_phy_set_mode 22 phy_no_supply PHY_MODE_USB_OTG 1
         world_zero) = 0.
Proof.
  split; [lia |].
  apply (set_mode_otg_arms_then_resolves 22 phy_no_supply 1 world_zero); lia.
Defined.

Lemma set_mode_otg_arm_extra_writes_witness :
  1 <> 0 /\
  mem (snd (rcar_gen3_phy_phy_set_mode 22 phy_no_supply PHY_MODE_USB_OTG 1
              world_zero)) (phy_base + USB2_INT_ENABLE) = 0xe.
Proof.
  split; [lia |].
  apply (set_mode_otg_arm_extra_writes 22 phy_no_supply 1 world_zero); lia.
Defined.

Lemma set_mode_host_preserves_other_bits_witness :
  0 <= 8 < 32 /\
  Z.testbit (mem (snd (rcar_gen3_phy_phy_set_mode 22 phy_no_supply
                         PHY_MODE_USB_HOST 0 world_bit8))
                 (phy_base + USB2_LINECTRL1)) 8 = true.
Proof.
  split; [lia |].
  pose proof (set_mode_host_preserves_other_bits 22 phy_no_supply 0
                world_bit8 8 ltac:(lia)) as H.
  cbv zeta in H. destruct H as (_ & _ & _ & _ & _ & _ & Hline & _).
  etransitivity; [apply Hline; lia | reflexivity].
Defined.

Lemma set_mode_unknown_mode_rejected_witness :
  (0 < 22 /\
   PHY_MODE_OTHER 0 <> PHY_MODE_USB_HOST /\
   PHY_MODE_OTHER 0 <> PHY_MODE_USB_DEVICE /\
   PHY_MODE_OTHER 0 <> PHY_MODE_USB_OTG) /\
  fst (rcar_gen3_phy_phy_set_mode 22 phy_no_supply (PHY_MODE_OTHER 0) 0
         world_bit8) = -22.
Proof.
  split; [repeat split; (lia || discriminate) |].
  apply (set_mode_unknown_mode_rejected 22 phy_no_supply (PHY_MODE_OTHER 0)
           world_bit8); (lia || discriminate).
Defined.

Lemma power_on_regulator_failure_witness :
  (vbus_supply phy_with_supply = Some tt /\ regulator_eio tt true <> 0) /\
  fst (rcar_gen3_phy_phy_power_on regulator_eio phy_with_supply world_bit8)
  = -5.
Proof.
  split; [split; [reflexivity | discriminate] |].
  apply (power_on_regulator_failure regulator_eio phy_with_supply tt
           world_bit8); [reflexivity | discriminate].
Defined.

Lemma power_on_without_regulator_witness :
  vbus_supply phy_no_supply = None /\
  fst (rcar_gen3_phy_phy_power_on regulator_eio phy_no_supply world_bit8) = 0.
Proof.
  split; [reflexivity |].
  apply (power_on_without_regulator regulator_eio phy_no_supply world_bit8).
  reflexivity.
Defined.

(** ** Further properties of the lifecycle operations *)

Section LifecycleFrame.

Context {udevice : Type}.
Variable regulator_set_enable : udevice -> bool -> Z.
Variable priv : rcar_gen3_phy udevice.

Local Abbreviation base := (regs priv).

(** X1: init and exit only store, and only to their own registers: a
    register other than INT_ENABLE, SPD_RSM_TIMSET and OC_TIMSET has the
    same value after init, and a register other than INT_ENABLE the same
    value after exit, which stores 0 to INT_ENABLE and returns 0. *)
Theorem init_exit_frame (w : world) (a : Z) :
  a <> base + USB2_INT_ENABLE ->
  (a <> base + USB2_SPD_RSM_TIMSET -> a <> base + USB2_OC_TIMSET ->
   mem (snd (rcar_gen3_phy_phy_init priv w)) a = mem w a) /\
  mem (snd (rcar_gen3_phy_phy_exit priv w)) a = mem w a /\
  rcar_gen3_phy_phy_exit priv w =
    (0, {| mem := upd (mem w) (base + USB2_INT_ENABLE) 0;
           log := log w ++ [EvWrite (base + USB2_INT_ENABLE) 0] |}).
Proof.
  intros Hi. unfold rcar_gen3_phy_phy_init, rcar_gen3_phy_phy_exit.
  split; [intros Hs Ho | split]; run.
  - rewrite ?upd_other by assumption. reflexivity.
  - rewrite ?upd_other by assumption. reflexivity.
  - reflexivity.
Qed.

(** X2: when the VBUS regulator is present and regulator_set_enable(true)
    returns 0, power_on calls the regulator first and only then pulses
    PLL_RST: the log gains the regulator call followed by the two
    read-modify-writes of USBCTR, and the result is 0. *)
Theorem power_on_regulator_then_pulse (supply : udevice) (w : world) :
  vbus_supply priv = Some supply ->
  regulator_set_enable supply true = 0 ->
  let r := rcar_gen3_phy_phy_power_on regulator_set_enable priv w in
  let ctr := wrap (mem w (base + USB2_USBCTR)) in
  let ctr_set := Z.lor ctr USB2_USBCTR_PLL_RST in
  let ctr_clr := Z.land ctr_set (Z.lnot USB2_USBCTR_PLL_RST) in
  fst r = 0 /\
  log (snd r) = log w ++ [EvRegulator true 0;
                          EvRead (base + USB2_USBCTR) ctr;
                          EvWrite (base + USB2_USBCTR) ctr_set;
                          EvRead (base + USB2_USBCTR) ctr_set;
                          EvWrite (base + USB2_USBCTR) ctr_clr] /\
  regulator_calls (log (snd r)) = regulator_calls (log w) ++ [(true, 0)].
Proof.
  intros Hsup Hok. cbv zeta.
  unfold rcar_gen3_phy_phy_power_on. rewrite Hsup. cbv zeta.
  rewrite run_bind. unfold regulator_call. cbn [fst snd].
  rewrite Hok. cbn [negb Z.eqb]. unfold emit. run.
  rewrite !regulator_calls_app. cbn [regulator_calls].
  repeat split.
Qed.

(** X3: whenever power_on returns 0, with or without a regulator, PLL_RST
    (bit 1 of USBCTR) is clear afterwards, every other bit [i] of USBCTR is
    as it was, and no other register has changed. *)
Theorem power_on_success_effect (w : world) (i a : Z) :
  0 <= i < 32 -> i <> 1 -> a <> base + USB2_USBCTR ->
  let r := rcar_gen3_phy_phy_power_on regulator_set_enable priv w in
  fst r = 0 ->
  Z.testbit (mem (snd r) (base + USB2_USBCTR)) 1 = false /\
  Z.testbit (mem (snd r) (base + USB2_USBCTR)) i =
    Z.testbit (mem w (base + USB2_USBCTR)) i /\
  mem (snd r) a = mem w a.
Proof.
  intros Hi Hi1 Ha. cbv zeta.
  unfold rcar_gen3_phy_phy_power_on.
  destruct (vbus_supply priv) as [supply |]; cbv zeta.
  - rewrite run_bind. unfold regulator_call. cbn [fst snd].
    destruct (Z.eqb_spec (regulator_set_enable supply true) 0) as [E | E];
      cbn [negb].
    + unfold emit. run. intros _. rewrite ?upd_other by assumption.
      unfold USB2_USBCTR_PLL_RST. repeat split; bits.
    + rewrite run_ret. cbn [fst]. contradiction.
  - run. intros _. rewrite ?upd_other by assumption.
    unfold USB2_USBCTR_PLL_RST. repeat split; bits.
Qed.

(** X4: power_off never accesses a register.  Without a regulator it does
    nothing and returns 0; with one it makes the single call
    regulator_set_enable(false) and returns its result, whatever it is. *)
Theorem power_off_only_regulator (w : world) :
  let r := rcar_gen3_phy_phy_power_off regulator_set_enable priv w in
  mem (snd r) = mem w /\
  (forall a, writes_to a (log (snd r)) = writes_to a (log w)) /\
  match vbus_supply priv with
  | None => r = (0, w)
  | Some supply =>
      fst r = regulator_set_enable supply false /\
      log (snd r) =
        log w ++ [EvRegulator false (regulator_set_enable supply false)]
  end.
Proof.
  cbv zeta. unfold rcar_gen3_phy_phy_power_off.
  destruct (vbus_supply priv) as [supply |].
  - unfold regulator_call, emit. cbn [fst snd mem log].
    repeat split. intros a. rewrite writes_to_app. cbn [writes_to].
    apply app_nil_r.
  - rewrite run_ret. cbn [fst snd]. repeat split.
Qed.

End LifecycleFrame.

(** ** Further properties of mode selection *)

(** Two words are equal when all their bits are. *)
Ltac word_eq :=
  apply Z.bits_inj'; intros ?i ?Hi;
  unfold USB2_COMMCTRL_OTG_PERI, USB2_LINECTRL1_DP_RPD, USB2_LINECTRL1_DM_RPD,
    USB2_ADPCTRL_DRVVBUS;
  bits;
  repeat match goal with
         | |- context [Z.testbit ?x ?j] => destruct (Z.testbit x j)
         end;
  reflexivity.

Section SetModeMore.

Context {udevice : Type}.
Variable EINVAL : Z.
Variable priv : rcar_gen3_phy udevice.

Local Abbreviation base := (regs priv).

(** The two bits that decide the resolution are not disturbed by the
    initialization block. *)
Lemma set_mode_otg_resolves_bits_at_call submode w :
  Z.testbit (wrap (mem (otg_sampled base submode w) (base + USB2_ADPCTRL))) 19
  && Z.testbit (wrap (mem (otg_sampled base submode w)
                          (base + USB2_ADPCTRL))) 20 =
  Z.testbit (mem w (base + USB2_ADPCTRL)) 19 &&
  Z.testbit (mem w (base + USB2_ADPCTRL)) 20.
Proof.
  unfold otg_sampled. destruct (negb (submode =? 0)).
  - run_with (otg_arm_run priv w). lookup.
    unfold USB2_ADPCTRL_IDPULLUP. f_equal; bits.
  - f_equal; bits.
Qed.

(** X5: set_mode(DEVICE, submode) returns 0 and leaves OTG_PERI (bit 31 of
    COMMCTRL) set, DM_RPD (bit 16 of LINECTRL1) set, DP_RPD (bit 18) clear
    and DRVVBUS (bit 4 of ADPCTRL) clear; every other bit [i] of the three
    registers is as it was. *)
Theorem set_mode_device_preserves_other_bits submode w i :
  0 <= i < 32 ->
  let r := rcar_gen3_phy_phy_set_mode EINVAL priv PHY_MODE_USB_DEVICE submode w in
  fst r = 0 /\
  Z.testbit (mem (snd r) (base + USB2_COMMCTRL)) 31 = true /\
  Z.testbit (mem (snd r) (base + USB2_LINECTRL1)) 18 = false /\
  Z.testbit (mem (snd r) (base + USB2_LINECTRL1)) 16 = true /\
  Z.testbit (mem (snd r) (base + USB2_ADPCTRL)) 4 = false /\
  (i <> 31 ->
   Z.testbit (mem (snd r) (base + USB2_COMMCTRL)) i =
   Z.testbit (mem w (base + USB2_COMMCTRL)) i) /\
  (i <> 18 -> i <> 16 ->
   Z.testbit (mem (snd r) (base + USB2_LINECTRL1)) i =
   Z.testbit (mem w (base + USB2_LINECTRL1)) i) /\
  (i <> 4 ->
   Z.testbit (mem (snd r) (base + USB2_ADPCTRL)) i =
   Z.testbit (mem w (base + USB2_ADPCTRL)) i).
Proof.
  intros Hi. cbv zeta. run_with (set_mode_device_run EINVAL priv submode w).
  lookup.
  unfold USB2_COMMCTRL_OTG_PERI, USB2_LINECTRL1_DP_RPD,
    USB2_LINECTRL1_DM_RPD, USB2_ADPCTRL_DRVVBUS.
  repeat split; try intros; bits.
Qed.

(** X6: between HOST and DEVICE the last call decides: calling set_mode
    for one of the two roles right after a call for either of them leaves
    every register as the second call alone would.  In particular the same
    call made twice changes nothing the second time. *)
Theorem set_mode_last_call_wins m1 m2 s1 s2 w a :
  m1 = PHY_MODE_USB_HOST \/ m1 = PHY_MODE_USB_DEVICE ->
  m2 = PHY_MODE_USB_HOST \/ m2 = PHY_MODE_USB_DEVICE ->
  mem (snd (rcar_gen3_phy_phy_set_mode EINVAL priv m2 s2
              (snd (rcar_gen3_phy_phy_set_mode EINVAL priv m1 s1 w)))) a =
  mem (snd (rcar_gen3_phy_phy_set_mode EINVAL priv m2 s2 w)) a.
Proof.
  intros [-> | ->] [-> | ->];
    (destruct (Z.eq_dec a (base + USB2_ADPCTRL)) as [-> | Ha];
     [| destruct (Z.eq_dec a (base + USB2_LINECTRL1)) as [-> | Hl];
        [| destruct (Z.eq_dec a (base + USB2_COMMCTRL)) as [-> | Hc] ] ]);
    repeat first [ run_with (set_mode_host_run EINVAL priv)
                 | run_with (set_mode_device_run EINVAL priv) ];
    lookup; unwrap; try reflexivity; word_eq.
Qed.

(** X7: set_mode returns 0 exactly for HOST, DEVICE and OTG (an OTG call
    always resolves to one of the two roles, so it cannot fail), and a call
    that fails has accessed nothing, whatever its submode: the
    initialization block is never run for an unknown mode. *)
Theorem set_mode_fails_only_on_unknown_mode mode submode w :
  EINVAL <> 0 ->
  let r := rcar_gen3_phy_phy_set_mode EINVAL priv mode submode w in
  (fst r = 0 <->
   mode = PHY_MODE_USB_HOST \/ mode = PHY_MODE_USB_DEVICE \/
   mode = PHY_MODE_USB_OTG) /\
  (fst r <> 0 -> fst r = - EINVAL /\ snd r = w).
Proof.
  intros He. cbv zeta. destruct mode as [| | | literal].
  - run_with (set_mode_host_run EINVAL priv submode w).
    split; [split; auto | intros H; now contradiction H].
  - run_with (set_mode_device_run EINVAL priv submode w).
    split; [split; auto | intros H; now contradiction H].
  - run_with (set_mode_otg_unfold EINVAL priv submode 0 w).
    match goal with
    | |- context [otg_resolve ?v] => destruct (otg_resolve_cases v) as [E | E]
    end; rewrite E;
    first [ run_with (set_mode_device_run EINVAL priv)
          | run_with (set_mode_host_run EINVAL priv) ];
    (split; [split; auto | intros H; now contradiction H]).
  - rewrite set_mode_other_run. cbn [fst snd]. split.
    + split; [lia | intros [H | [H | H]]; discriminate].
    + auto.
Qed.

(** Outside COMMCTRL, LINECTRL1 and ADPCTRL a call leaves what the
    initialization block, if it ran, left. *)
Lemma set_mode_mem_elsewhere mode submode w a :
  a <> base + USB2_COMMCTRL ->
  a <> base + USB2_LINECTRL1 ->
  a <> base + USB2_ADPCTRL ->
  mem (snd (rcar_gen3_phy_phy_set_mode EINVAL priv mode submode w)) a =
  mem (match mode with
       | PHY_MODE_USB_OTG => otg_sampled base submode w
       | _ => w
       end) a.
Proof.
  intros Hc Hl Ha. destruct mode as [| | | literal].
  - run_with (set_mode_host_run EINVAL priv submode w). now lookup.
  - run_with (set_mode_device_run EINVAL priv submode w). now lookup.
  - run_with (set_mode_otg_unfold EINVAL priv submode 0 w).
    match goal with
    | |- context [otg_resolve ?v] => destruct (otg_resolve_cases v) as [E | E]
    end; rewrite E;
    first [ run_with (set_mode_device_run EINVAL priv)
          | run_with (set_mode_host_run EINVAL priv) ];
    unfold emit; cbn [mem log]; now lookup.
  - now rewrite set_mode_other_run.
Qed.

Lemma otg_sampled_mem_elsewhere submode w a :
  a <> base + USB2_LINECTRL1 ->
  a <> base + USB2_ADPCTRL ->
  submode = 0 \/
  (a <> base + USB2_INT_ENABLE /\ a <> base + USB2_VBCTRL /\
   a <> base + USB2_OBINTSTA /\ a <> base + USB2_OBINTEN) ->
  mem (otg_sampled base submode w) a = mem w a.
Proof.
  intros Hl Ha Hcase. unfold otg_sampled.
  destruct (Z.eqb_spec submode 0) as [E | E]; cbn [negb]; [reflexivity |].
  destruct Hcase as [H | (H1 & H2 & H3 & H4)]; [contradiction |].
  run_with (otg_arm_run priv w). now lookup.
Qed.

(** X8: set_mode stays within its registers.  No call changes a register
    other than COMMCTRL, LINECTRL1, ADPCTRL and the four registers of the
    initialization block (INT_ENABLE, VBCTRL, OBINTSTA, OBINTEN); and
    unless the call is OTG with a submode other than 0, those four are
    unchanged as well. *)
Theorem set_mode_frame mode submode w a :
  a <> base + USB2_COMMCTRL ->
  a <> base + USB2_LINECTRL1 ->
  a <> base + USB2_ADPCTRL ->
  mode <> PHY_MODE_USB_OTG \/ submode = 0 \/
  (a <> base + USB2_INT_ENABLE /\ a <> base + USB2_VBCTRL /\
   a <> base + USB2_OBINTSTA /\ a <> base + USB2_OBINTEN) ->
  mem (snd (rcar_gen3_phy_phy_set_mode EINVAL priv mode submode w)) a =
  mem w a.
Proof.
  intros Hc Hl Ha Hcase.
  rewrite set_mode_mem_elsewhere by assumption.
  destruct mode as [| | | literal]; try reflexivity.
  apply otg_sampled_mem_elsewhere; try assumption.
  destruct Hcase as [H | [H | H]]; [now contradiction H | now left | now right].
Qed.

(** X9: set_mode(OTG, 0) in a state where IDDIG (bit 19) or OTGSESSVLD
    (bit 20) of ADPCTRL is clear acts as HOST: after the load of ADPCTRL it
    clears OTG_PERI, sets DP_RPD and DM_RPD, sets DRVVBUS, and returns 0. *)
Theorem set_mode_otg_poll_host w :
  Z.testbit (mem w (base + USB2_ADPCTRL)) 19 &&
  Z.testbit (mem w (base + USB2_ADPCTRL)) 20 = false ->
  let r := rcar_gen3_phy_phy_set_mode EINVAL priv PHY_MODE_USB_OTG 0 w in
  let comm := wrap (mem w (base + USB2_COMMCTRL)) in
  let line := wrap (mem w (base + USB2_LINECTRL1)) in
  let adp := wrap (mem w (base + USB2_ADPCTRL)) in
  let comm' := Z.land comm (Z.lnot USB2_COMMCTRL_OTG_PERI) in
  let line' := Z.lor line (Z.lor USB2_LINECTRL1_DP_RPD USB2_LINECTRL1_DM_RPD) in
  let adp' := Z.lor adp USB2_ADPCTRL_DRVVBUS in
  fst r = 0 /\
  log (snd r) = log w ++ [EvRead (base + USB2_ADPCTRL) adp;
                          EvRead (base + USB2_COMMCTRL) comm;
                          EvWrite (base + USB2_COMMCTRL) comm';
                          EvRead (base + USB2_LINECTRL1) line;
                          EvWrite (base + USB2_LINECTRL1) line';
                          EvRead (base + USB2_ADPCTRL) adp;
                          EvWrite (base + USB2_ADPCTRL) adp'] /\
  mem (snd r) = upd (upd (upd (mem w) (base + USB2_COMMCTRL) comm')
                         (base + USB2_LINECTRL1) line')
                    (base + USB2_ADPCTRL) adp' /\
  Z.testbit (mem (snd r) (base + USB2_COMMCTRL)) 31 = false /\
  Z.testbit (mem (snd r) (base + USB2_LINECTRL1)) 18 = true /\
  Z.testbit (mem (snd r) (base + USB2_LINECTRL1)) 16 = true /\
  Z.testbit (mem (snd r) (base + USB2_ADPCTRL)) 4 = true.
Proof.
  intros Hbits. cbv zeta.
  run_with (set_mode_otg_unfold EINVAL priv 0 0 w).
  change (otg_sampled base 0 w) with w.
  rewrite otg_resolve_bits, !testbit_wrap, Hbits by lia.
  run_with (set_mode_host_run EINVAL priv 0
              (emit (EvRead (base + USB2_ADPCTRL)
                            (wrap (mem w (base + USB2_ADPCTRL)))) w)).
  unfold emit; cbn [mem log]. rewrite <- app_assoc. cbn [app]. lookup.
  unfold USB2_COMMCTRL_OTG_PERI, USB2_LINECTRL1_DP_RPD,
    USB2_LINECTRL1_DM_RPD, USB2_ADPCTRL_DRVVBUS.
  repeat split; bits.
Qed.

(** X10: whatever the submode, set_mode(OTG, submode) returns 0 and leaves
    the role bits as the cable says.  With [device] the conjunction of
    IDDIG and OTGSESSVLD (bits 19 and 20 of ADPCTRL) at the time of the
    call: OTG_PERI ends equal to [device], DRVVBUS and DP_RPD end equal to
    its negation, DM_RPD ends set, and IDDIG and OTGSESSVLD themselves are
    untouched. *)
Theorem set_mode_otg_outcome submode w :
  let device := Z.testbit (mem w (base + USB2_ADPCTRL)) 19 &&
                Z.testbit (mem w (base + USB2_ADPCTRL)) 20 in
  let r := rcar_gen3_phy_phy_set_mode EINVAL priv PHY_MODE_USB_OTG submode w in
  fst r = 0 /\
  Z.testbit (mem (snd r) (base + USB2_COMMCTRL)) 31 = device /\
  Z.testbit (mem (snd r) (base + USB2_ADPCTRL)) 4 = negb device /\
  Z.testbit (mem (snd r) (base + USB2_LINECTRL1)) 18 = negb device /\
  Z.testbit (mem (snd r) (base + USB2_LINECTRL1)) 16 = true /\
  Z.testbit (mem (snd r) (base + USB2_ADPCTRL)) 19 =
    Z.testbit (mem w (base + USB2_ADPCTRL)) 19 /\
  Z.testbit (mem (snd r) (base + USB2_ADPCTRL)) 20 =
    Z.testbit (mem w (base + USB2_ADPCTRL)) 20.
Proof.
  cbv zeta.
  pose proof (set_mode_otg_resolves_bits_at_call submode w) as Hres.
  run_with (set_mode_otg_unfold EINVAL priv submode 0 w).
  rewrite otg_resolve_bits, Hres.
  assert (Hadp : forall i, 0 <= i < 32 -> i <> 5 ->
            Z.testbit (mem (otg_sampled base submode w) (base + USB2_ADPCTRL)) i
            = Z.testbit (mem w (base + USB2_ADPCTRL)) i).
  { intros i Hi Hi5. unfold otg_sampled.
    destruct (negb (submode =? 0)); [| reflexivity].
    run_with (otg_arm_run priv w). lookup.
    unfold USB2_ADPCTRL_IDPULLUP. bits. }
  destruct (Z.testbit (mem w (base + USB2_ADPCTRL)) 19 &&
            Z.testbit (mem w (base + USB2_ADPCTRL)) 20);
    first [ run_with (set_mode_device_run EINVAL priv)
          | run_with (set_mode_host_run EINVAL priv) ];
    unfold emit; cbn [mem log]; lookup;
    unfold USB2_COMMCTRL_OTG_PERI, USB2_LINECTRL1_DP_RPD,
      USB2_LINECTRL1_DM_RPD, USB2_ADPCTRL_DRVVBUS;
    repeat split; bits; apply Hadp; lia.
Qed.

End SetModeMore.


(** ** Invariants of call sequences *)

Section OpsInvariants.

Context {udevice : Type}.
Variable regulator_set_enable : udevice -> bool -> Z.
Variable EINVAL : Z.
Variable priv : rcar_gen3_phy udevice.

Local Abbreviation base := (regs priv).
Local Abbreviation call := (rcar_gen3_phy_phy_ops regulator_set_enable EINVAL priv).
Local Abbreviation calls := (run_ops regulator_set_enable EINVAL priv).













End OpsInvariants.


(** ** Binding *)

Section BindingFacts.

Context {udevice clk : Type}.
Variable dev_read_addr : udevice -> Z.
Variable device_get_supply_regulator :
  udevice -> string -> option udevice -> Z * option udevice.
Variable clk_get_by_index : udevice -> Z -> clk -> Z * clk.
Variable clk_enable : clk -> Z * clk.
Variable clk_disable : clk -> Z * clk.
Variable FDT_ADDR_T_NONE : Z.
Variable EINVAL : Z.
Variable ENOENT : Z.

Local Abbreviation probe :=
  (rcar_gen3_phy_probe dev_read_addr device_get_supply_regulator
     clk_get_by_index clk_enable FDT_ADDR_T_NONE EINVAL ENOENT).

(** The results of the three fallible collaborators, as probe would get
    them when started in [s]. *)
Local Abbreviation supply_result dev s :=
  (device_get_supply_regulator dev "vbus-supply"%string
     (priv_vbus_supply (dm_priv s))).
Local Abbreviation clk_get_result dev s :=
  (clk_get_by_index dev 0 (priv_clk (dm_priv s))).
Local Abbreviation clk_enable_result dev s :=
  (clk_enable (snd (clk_get_result dev s))).

(** Unfold probe and name the results of the collaborators. *)
Ltac probe_cases dev s :=
  unfold rcar_gen3_phy_probe; cbv zeta; cbn [priv_regs priv_clk priv_vbus_supply];
  destruct (device_get_supply_regulator dev "vbus-supply"%string
              (priv_vbus_supply (dm_priv s))) as [rs sup] eqn:Esup;
  destruct (clk_get_by_index dev 0 (priv_clk (dm_priv s))) as [rc c1] eqn:Eget;
  cbn [fst snd] in *;
  destruct (clk_enable c1) as [re c2] eqn:Een;
  cbn [fst snd priv_regs priv_clk priv_vbus_supply dm_priv dm_calls] in *.

(** X15: when the device has no register address (dev_read_addr gives
    FDT_ADDR_T_NONE) probe returns -EINVAL at once: the regulator is not
    looked up and the clock is neither looked up nor enabled. *)
Theorem probe_without_address dev s :
  dev_read_addr dev = FDT_ADDR_T_NONE ->
  let r := rcar_gen3_phy_probe dev_read_addr device_get_supply_regulator
             clk_get_by_index clk_enable FDT_ADDR_T_NONE EINVAL ENOENT dev s in
  fst r = - EINVAL /\
  dm_calls (snd r) = dm_calls s ++ [CallReadAddr FDT_ADDR_T_NONE] /\
  priv_vbus_supply (dm_priv (snd r)) = priv_vbus_supply (dm_priv s) /\
  priv_clk (dm_priv (snd r)) = priv_clk (dm_priv s).
Proof.
  intros Hnone. probe_cases dev s.
  rewrite Hnone, Z.eqb_refl. cbn [fst snd dm_priv dm_calls priv_clk
                                   priv_vbus_supply].
  repeat split.
Qed.

(** X16: when the regulator lookup fails with anything but -ENOENT, probe
    returns that error and stops: the clock is neither looked up nor
    enabled. *)
Theorem probe_regulator_error dev s :
  dev_read_addr dev <> FDT_ADDR_T_NONE ->
  fst (supply_result dev s) <> 0 ->
  fst (supply_result dev s) <> - ENOENT ->
  let r := rcar_gen3_phy_probe dev_read_addr device_get_supply_regulator
             clk_get_by_index clk_enable FDT_ADDR_T_NONE EINVAL ENOENT dev s in
  fst r = fst (supply_result dev s) /\
  dm_calls (snd r) =
    dm_calls s ++ [CallReadAddr (dev_read_addr dev);
                   CallGetSupply "vbus-supply" (fst (supply_result dev s))] /\
  filter is_clk_call (dm_calls (snd r)) = filter is_clk_call (dm_calls s).
Proof.
  intros Haddr H0 Hne. cbv zeta. probe_cases dev s.
  apply Z.eqb_neq in Haddr, H0, Hne. rewrite Haddr, H0, Hne.
  cbn [negb andb fst snd dm_calls].
  rewrite <- app_assoc. cbn [app]. repeat split.
  rewrite filter_app. cbn [filter is_clk_call]. apply app_nil_r.
Qed.

(** X17: a missing regulator is not an error: when the lookup answers
    -ENOENT and leaves no regulator, and the clock can be looked up and
    enabled, probe returns 0 with the address stored, no regulator, and
    the clock enabled once. *)
Theorem probe_without_regulator dev s :
  dev_read_addr dev <> FDT_ADDR_T_NONE ->
  supply_result dev s = (- ENOENT, None) ->
  fst (clk_get_result dev s) = 0 ->
  fst (clk_enable_result dev s) = 0 ->
  let r := rcar_gen3_phy_probe dev_read_addr device_get_supply_regulator
             clk_get_by_index clk_enable FDT_ADDR_T_NONE EINVAL ENOENT dev s in
  fst r = 0 /\
  phy_of_priv (dm_priv (snd r)) =
    {| regs := dev_read_addr dev; vbus_supply := None |} /\
  dm_calls (snd r) =
    dm_calls s ++ [CallReadAddr (dev_read_addr dev);
                   CallGetSupply "vbus-supply" (- ENOENT);
                   CallClkGet 0 0; CallClkEnable 0].
Proof.
  intros Haddr Hsup Hget Hen. cbv zeta. probe_cases dev s.
  injection Hsup as -> ->. subst rc re.
  apply Z.eqb_neq in Haddr. rewrite Haddr, Z.eqb_refl.
  rewrite andb_false_r. cbn [negb Z.eqb fst snd dm_priv dm_calls].
  rewrite <- !app_assoc. cbn [app]. repeat split.
Qed.

(** X18: when the clock lookup fails, probe returns its error and never
    calls clk_enable. *)
Theorem probe_clk_get_error dev s :
  dev_read_addr dev <> FDT_ADDR_T_NONE ->
  fst (supply_result dev s) = 0 \/ fst (supply_result dev s) = - ENOENT ->
  fst (clk_get_result dev s) <> 0 ->
  let r := rcar_gen3_phy_probe dev_read_addr device_get_supply_regulator
             clk_get_by_index clk_enable FDT_ADDR_T_NONE EINVAL ENOENT dev s in
  fst r = fst (clk_get_result dev s) /\
  dm_calls (snd r) =
    dm_calls s ++ [CallReadAddr (dev_read_addr dev);
                   CallGetSupply "vbus-supply" (fst (supply_result dev s));
                   CallClkGet 0 (fst (clk_get_result dev s))] /\
  filter is_clk_enable (dm_calls (snd r)) =
    filter is_clk_enable (dm_calls s).
Proof.
  intros Haddr Hsup Hget. cbv zeta. probe_cases dev s.
  apply Z.eqb_neq in Haddr, Hget. rewrite Haddr, Hget.
  assert (Hgo : negb (rs =? 0) && negb (rs =? - ENOENT) = false).
  { destruct Hsup as [-> | ->]; [reflexivity |].
    rewrite Z.eqb_refl. apply andb_false_r. }
  rewrite Hgo. cbn [negb fst snd dm_calls].
  rewrite <- !app_assoc. cbn [app]. repeat split.
  rewrite filter_app. cbn [filter is_clk_enable]. apply app_nil_r.
Qed.

(** X19: when clk_enable fails, probe returns its error and does not undo
    anything: clk_disable is not called. *)
Theorem probe_clk_enable_error dev s :
  dev_read_addr dev <> FDT_ADDR_T_NONE ->
  fst (supply_result dev s) = 0 \/ fst (supply_result dev s) = - ENOENT ->
  fst (clk_get_result dev s) = 0 ->
  fst (clk_enable_result dev s) <> 0 ->
  let r := rcar_gen3_phy_probe dev_read_addr device_get_supply_regulator
             clk_get_by_index clk_enable FDT_ADDR_T_NONE EINVAL ENOENT dev s in
  fst r = fst (clk_enable_result dev s) /\
  dm_calls (snd r) =
    dm_calls s ++ [CallReadAddr (dev_read_addr dev);
                   CallGetSupply "vbus-supply" (fst (supply_result dev s));
                   CallClkGet 0 0;
                   CallClkEnable (fst (clk_enable_result dev s))] /\
  filter is_clk_disable (dm_calls (snd r)) =
    filter is_clk_disable (dm_calls s).
Proof.
  intros Haddr Hsup Hget Hen. cbv zeta. probe_cases dev s. subst rc.
  apply Z.eqb_neq in Haddr, Hen. rewrite Haddr, Hen.
  assert (Hgo : negb (rs =? 0) && negb (rs =? - ENOENT) = false).
  { destruct Hsup as [-> | ->]; [reflexivity |].
    rewrite Z.eqb_refl. apply andb_false_r. }
  rewrite Hgo. cbn [negb Z.eqb fst snd dm_calls].
  rewrite <- !app_assoc. cbn [app]. repeat split.
  rewrite filter_app. cbn [filter is_clk_disable]. apply app_nil_r.
Qed.

(** X20: probe returns 0 exactly when the device has an address, the
    regulator lookup returned 0 or -ENOENT, and the clock was looked up
    and enabled without error; and then the private structure holds the
    address read, which is not FDT_ADDR_T_NONE, and the regulator that the
    lookup left. *)
Theorem probe_succeeds_iff dev s :
  EINVAL <> 0 ->
  let r := rcar_gen3_phy_probe dev_read_addr device_get_supply_regulator
             clk_get_by_index clk_enable FDT_ADDR_T_NONE EINVAL ENOENT dev s in
  (fst r = 0 <->
   dev_read_addr dev <> FDT_ADDR_T_NONE /\
   (fst (supply_result dev s) = 0 \/ fst (supply_result dev s) = - ENOENT) /\
   fst (clk_get_result dev s) = 0 /\
   fst (clk_enable_result dev s) = 0) /\
  (fst r = 0 ->
   priv_regs (dm_priv (snd r)) = dev_read_addr dev /\
   priv_regs (dm_priv (snd r)) <> FDT_ADDR_T_NONE /\
   priv_vbus_supply (dm_priv (snd r)) = snd (supply_result dev s)).
Proof.
  clear clk_disable. intros He. cbv zeta. probe_cases dev s.
  destruct (Z.eqb_spec (dev_read_addr dev) FDT_ADDR_T_NONE) as [Ea | Ea].
  { cbn [fst snd]. split; [split |]; intros H; try lia; tauto. }
  destruct (Z.eqb_spec rs 0) as [E0 | E0];
    destruct (Z.eqb_spec rs (- ENOENT)) as [E1 | E1];
    cbn [negb andb];
    try (destruct (Z.eqb_spec rc 0) as [Ec | Ec]; cbn [negb];
         [destruct (Z.eqb_spec re 0) as [Ee | Ee]; cbn [negb] |]);
    cbn [fst snd dm_priv priv_regs priv_vbus_supply];
    (split; [split |]); intros; repeat split; auto; try tauto; try lia.
Qed.

(** X21: remove calls clk_disable once and returns 0 whatever clk_disable
    returns; the address and the regulator of the private structure are
    kept. *)
Theorem remove_ignores_clk_disable_result (s : dm_state udevice clk) :
  let r := rcar_gen3_phy_remove clk_disable s in
  fst r = 0 /\
  dm_calls (snd r) =
    dm_calls s ++ [CallClkDisable (fst (clk_disable (priv_clk (dm_priv s))))] /\
  phy_of_priv (dm_priv (snd r)) = phy_of_priv (dm_priv s).
Proof.
  cbv zeta. unfold rcar_gen3_phy_remove. cbv zeta.
  destruct (clk_disable (priv_clk (dm_priv s))) as [rd c]. cbn [fst snd].
  repeat split.
Qed.

(** Past the address check, probe has stored the address and whatever
    regulator the lookup left, however the clock calls end. *)
Lemma probe_phy_of_priv dev s :
  dev_read_addr dev <> FDT_ADDR_T_NONE ->
  phy_of_priv (dm_priv (snd (probe dev s))) =
  {| regs := dev_read_addr dev; vbus_supply := snd (supply_result dev s) |}.
Proof.
  intros Haddr. probe_cases dev s.
  apply Z.eqb_neq in Haddr. rewrite Haddr.
  destruct (negb (rs =? 0) && negb (rs =? - ENOENT)); [reflexivity |].
  destruct (negb (rc =? 0)); [reflexivity |].
  destruct (negb (re =? 0)); reflexivity.
Qed.

(** X22: a PHY bound without a regulator never asks for one.  After a
    probe that succeeded with the lookup answering -ENOENT and leaving no
    regulator, power_off on the bound instance does nothing and returns 0,
    power_on returns 0 without a regulator call, and the registers are
    addressed from the address probe read: the first store of init goes to
    that address plus the offset of INT_ENABLE. *)
Theorem probed_phy_without_regulator
    (regulator_set_enable : udevice -> bool -> Z) dev s w :
  dev_read_addr dev <> FDT_ADDR_T_NONE ->
  supply_result dev s = (- ENOENT, None) ->
  fst (clk_get_result dev s) = 0 ->
  fst (clk_enable_result dev s) = 0 ->
  let r := rcar_gen3_phy_probe dev_read_addr device_get_supply_regulator
             clk_get_by_index clk_enable FDT_ADDR_T_NONE EINVAL ENOENT dev s in
  let phy := phy_of_priv (dm_priv (snd r)) in
  fst r = 0 /\
  rcar_gen3_phy_phy_power_off regulator_set_enable phy w = (0, w) /\
  fst (rcar_gen3_phy_phy_power_on regulator_set_enable phy w) = 0 /\
  regulator_calls
    (log (snd (rcar_gen3_phy_phy_power_on regulator_set_enable phy w))) =
    regulator_calls (log w) /\
  log (snd (rcar_gen3_phy_phy_init phy w)) =
    log w ++ [EvWrite (dev_read_addr dev + USB2_INT_ENABLE) 0;
              EvWrite (dev_read_addr dev + USB2_SPD_RSM_TIMSET) 0x014e029b;
              EvWrite (dev_read_addr dev + USB2_OC_TIMSET) 0x000209ab].
Proof.
  intros Haddr Hsup Hget Hen. cbv zeta.
  rewrite (probe_phy_of_priv dev s Haddr), Hsup. cbn [snd].
  split.
  - probe_cases dev s. injection Hsup as -> ->. subst rc re.
    apply Z.eqb_neq in Haddr. rewrite Haddr, Z.eqb_refl.
    now rewrite andb_false_r.
  - unfold rcar_gen3_phy_phy_power_off, rcar_gen3_phy_phy_power_on,
      rcar_gen3_phy_phy_init.
    cbn [vbus_supply regs]. cbv zeta. run.
    rewrite regulator_calls_app. cbn [regulator_calls].
    rewrite app_nil_r. repeat split.
Qed.

End BindingFacts.


(** ** The further statements at concrete inputs *)

Example probe_from_unbound :
  rcar_gen3_phy_probe dt_read_addr_ok dt_supply_ok clk_get_ok clk_enable_ok
    fdt_addr_none 22 2 tt dm_unbound =
  (0, {| dm_priv := {| priv_regs := 0xee080200; priv_clk := 1%nat;
                       priv_vbus_supply := Some tt |};
         dm_calls := [CallReadAddr 0xee080200; CallGetSupply "vbus-supply" 0;
                      CallClkGet 0 0; CallClkEnable 0] |}).
Proof. reflexivity. Qed.

Example host_then_device_then_host :
  mem (run_ops regulator_ok 22 phy_no_supply
         [OP_init; OP_set_mode PHY_MODE_USB_HOST 0;
          OP_set_mode PHY_MODE_USB_DEVICE 0; OP_power_on;
          OP_set_mode PHY_MODE_USB_HOST 0; OP_exit] world_bit8)
      (phy_base + USB2_LINECTRL1) = 0x50100.
Proof. vm_compute. reflexivity. Qed.

Lemma init_exit_frame_witness :
  phy_base + USB2_USBCTR <> phy_base + USB2_INT_ENABLE /\
  mem (snd (rcar_gen3_phy_phy_exit phy_no_supply world_bit8))
      (phy_base + USB2_USBCTR) = 0x100.
Proof.
  assert (H : phy_base + USB2_USBCTR <> phy_base + USB2_INT_ENABLE)
    by (vm_compute; discriminate).
  split; [exact H |].
  exact (proj1 (proj2 (init_exit_frame phy_no_supply world_bit8
                         (phy_base + USB2_USBCTR) H))).
Defined.

Lemma power_on_regulator_then_pulse_witness :
  (vbus_supply phy_with_supply = Some tt /\ regulator_ok tt true = 0) /\
  fst (rcar_gen3_phy_phy_power_on regulator_ok phy_with_supply world_bit8) = 0.
Proof.
  split; [split; reflexivity |].
  apply (power_on_regulator_then_pulse regulator_ok phy_with_supply tt
           world_bit8); reflexivity.
Defined.

Lemma power_on_success_effect_witness :
  (0 <= 8 < 32 /\ 8 <> 1 /\
   phy_base + USB2_ADPCTRL <> phy_base + USB2_USBCTR /\
   fst (rcar_gen3_phy_phy_power_on regulator_ok phy_with_supply world_bit8)
   = 0) /\
  Z.testbit
    (mem (snd (rcar_gen3_phy_phy_power_on regulator_ok phy_with_supply
                 world_bit8)) (phy_base + USB2_USBCTR)) 1 = false.
Proof.
  assert (Ha : phy_base + USB2_ADPCTRL <> phy_base + USB2_USBCTR)
    by (vm_compute; discriminate).
  split; [repeat split; (lia || exact Ha) |].
  apply (power_on_success_effect regulator_ok phy_with_supply world_bit8 8
           (phy_base + USB2_ADPCTRL)); (lia || exact Ha || reflexivity).
Defined.

Lemma set_mode_device_preserves_other_bits_witness :
  0 <= 8 < 32 /\
  fst (rcar_gen3_phy_phy_set_mode 22 phy_no_supply PHY_MODE_USB_DEVICE 0
         world_bit8) = 0.
Proof.
  split; [lia |].
  apply (set_mode_device_preserves_other_bits 22 phy_no_supply 0 world_bit8 8).
  lia.
Defined.

Lemma set_mode_last_call_wins_witness :
  (PHY_MODE_USB_HOST = PHY_MODE_USB_HOST \/
   PHY_MODE_USB_HOST = PHY_MODE_USB_DEVICE) /\
  (PHY_MODE_USB_DEVICE = PHY_MODE_USB_HOST \/
   PHY_MODE_USB_DEVICE = PHY_MODE_USB_DEVICE) /\
  mem (snd (rcar_gen3_phy_phy_set_mode 22 phy_no_supply PHY_MODE_USB_DEVICE 0
              (snd (rcar_gen3_phy_phy_set_mode 22 phy_no_supply
                      PHY_MODE_USB_HOST 0 world_bit8))))
      (phy_base + USB2_LINECTRL1) =
  mem (snd (rcar_gen3_phy_phy_set_mode 22 phy_no_supply PHY_MODE_USB_DEVICE 0
              world_bit8)) (phy_base + USB2_LINECTRL1).
Proof.
  split; [now left | split; [now right |]].
  apply (set_mode_last_call_wins 22 phy_no_supply); [now left | now right].
Defined.

Lemma set_mode_fails_only_on_unknown_mode_witness :
  22 <> 0 /\
  (fst (rcar_gen3_phy_phy_set_mode 22 phy_no_supply (PHY_MODE_OTHER 7) 1
          world_bit8) <> 0 ->
   snd (rcar_gen3_phy_phy_set_mode 22 phy_no_supply (PHY_MODE_OTHER 7) 1
          world_bit8) = world_bit8).
Proof.
  assert (H : 22 <> 0) by lia.
  split; [exact H |]. intros Hf.
  exact (proj2 (proj2 (set_mode_fails_only_on_unknown_mode 22 phy_no_supply
                         (PHY_MODE_OTHER 7) 1 world_bit8 H) Hf)).
Defined.

Lemma set_mode_frame_witness :
  (phy_base + USB2_INT_ENABLE <> phy_base + USB2_COMMCTRL /\
   phy_base + USB2_INT_ENABLE <> phy_base + USB2_LINECTRL1 /\
   phy_base + USB2_INT_ENABLE <> phy_base + USB2_ADPCTRL /\
   (PHY_MODE_USB_OTG <> PHY_MODE_USB_OTG \/ 0 = 0 \/
    (phy_base + USB2_INT_ENABLE <> phy_base + USB2_INT_ENABLE /\
     phy_base + USB2_INT_ENABLE <> phy_base + USB2_VBCTRL /\
     phy_base + USB2_INT_ENABLE <> phy_base + USB2_OBINTSTA /\
     phy_base + USB2_INT_ENABLE <> phy_base + USB2_OBINTEN))) /\
  mem (snd (rcar_gen3_phy_phy_set_mode 22 phy_no_supply PHY_MODE_USB_OTG 0
              world_bit8)) (phy_base + USB2_INT_ENABLE) = 0x100.
Proof.
  assert (Hc : phy_base + USB2_INT_ENABLE <> phy_base + USB2_COMMCTRL)
    by (vm_compute; discriminate).
  assert (Hl : phy_base + USB2_INT_ENABLE <> phy_base + USB2_LINECTRL1)
    by (vm_compute; discriminate).
  assert (Ha : phy_base + USB2_INT_ENABLE <> phy_base + USB2_ADPCTRL)
    by (vm_compute; discriminate).
  split; [repeat split; auto |].
  apply (set_mode_frame 22 phy_no_supply PHY_MODE_USB_OTG 0 world_bit8
           (phy_base + USB2_INT_ENABLE) Hc Hl Ha). auto.
Defined.

Lemma set_mode_otg_poll_host_witness :
  Z.testbit (mem world_bit8 (phy_base + USB2_ADPCTRL)) 19 &&
  Z.testbit (mem world_bit8 (phy_base + USB2_ADPCTRL)) 20 = false /\
  fst (rcar_gen3_phy_phy_set_mode 22 phy_no_supply PHY_MODE_USB_OTG 0
         world_bit8) = 0.
Proof.
  split; [reflexivity |].
  apply (set_mode_otg_poll_host 22 phy_no_supply world_bit8). reflexivity.
Defined.




Lemma probe_without_address_witness :
  dt_read_addr_none tt = fdt_addr_none /\
  fst (rcar_gen3_phy_probe dt_read_addr_none dt_supply_ok clk_get_ok
         clk_enable_ok fdt_addr_none 22 2 tt dm_unbound) = -22.
Proof.
  split; [reflexivity |].
  apply (probe_without_address dt_read_addr_none dt_supply_ok clk_get_ok
           clk_enable_ok fdt_addr_none 22 2 tt dm_unbound). reflexivity.
Defined.

Lemma probe_regulator_error_witness :
  (dt_read_addr_ok tt <> fdt_addr_none /\
   fst (dt_supply_eio tt "vbus-supply"%string None) <> 0 /\
   fst (dt_supply_eio tt "vbus-supply"%string None) <> - 2) /\
  fst (rcar_gen3_phy_probe dt_read_addr_ok dt_supply_eio clk_get_ok
         clk_enable_ok fdt_addr_none 22 2 tt dm_unbound) = -5.
Proof.
  split; [repeat split; vm_compute; discriminate |].
  apply (probe_regulator_error dt_read_addr_ok dt_supply_eio clk_get_ok
           clk_enable_ok fdt_addr_none 22 2 tt dm_unbound);
    vm_compute; discriminate.
Defined.

Lemma probe_without_regulator_witness :
  (dt_read_addr_ok tt <> fdt_addr_none /\
   dt_no_supply tt "vbus-supply"%string None = (- 2, None) /\
   fst (clk_get_ok tt 0 0%nat) = 0 /\
   fst (clk_enable_ok (snd (clk_get_ok tt 0 0%nat))) = 0) /\
  fst (rcar_gen3_phy_probe dt_read_addr_ok dt_no_supply clk_get_ok
         clk_enable_ok fdt_addr_none 22 2 tt dm_unbound) = 0.
Proof.
  split; [repeat split; vm_compute; discriminate |].
  apply (probe_without_regulator dt_read_addr_ok dt_no_supply clk_get_ok
           clk_enable_ok fdt_addr_none 22 2 tt dm_unbound);
    first [reflexivity | vm_compute; discriminate].
Defined.

Lemma probe_clk_get_error_witness :
  (dt_read_addr_ok tt <> fdt_addr_none /\
   (fst (dt_supply_ok tt "vbus-supply"%string None) = 0 \/
    fst (dt_supply_ok tt "vbus-supply"%string None) = - 2) /\
   fst (clk_get_fail tt 0 0%nat) <> 0) /\
  fst (rcar_gen3_phy_probe dt_read_addr_ok dt_supply_ok clk_get_fail
         clk_enable_ok fdt_addr_none 22 2 tt dm_unbound) = -61.
Proof.
  split; [split; [| split; [left; reflexivity |]]; vm_compute; discriminate |].
  apply (probe_clk_get_error dt_read_addr_ok dt_supply_ok clk_get_fail
           clk_enable_ok fdt_addr_none 22 2 tt dm_unbound);
    first [left; reflexivity | vm_compute; discriminate].
Defined.

Lemma probe_clk_enable_error_witness :
  (dt_read_addr_ok tt <> fdt_addr_none /\
   (fst (dt_no_supply tt "vbus-supply"%string None) = 0 \/
    fst (dt_no_supply tt "vbus-supply"%string None) = - 2) /\
   fst (clk_get_ok tt 0 0%nat) = 0 /\
   fst (clk_enable_fail (snd (clk_get_ok tt 0 0%nat))) <> 0) /\
  fst (rcar_gen3_phy_probe dt_read_addr_ok dt_no_supply clk_get_ok
         clk_enable_fail fdt_addr_none 22 2 tt dm_unbound) = -16.
Proof.
  split;
    [split; [| split; [right; reflexivity | split; [reflexivity |]]];
     vm_compute; discriminate |].
  apply (probe_clk_enable_error dt_read_addr_ok dt_no_supply clk_get_ok
           clk_enable_fail fdt_addr_none 22 2 tt dm_unbound);
    first [right; reflexivity | reflexivity | vm_compute; discriminate].
Defined.

Lemma probe_succeeds_iff_witness :
  22 <> 0 /\
  (fst (rcar_gen3_phy_probe dt_read_addr_ok dt_supply_ok clk_get_ok
          clk_enable_ok fdt_addr_none 22 2 tt dm_unbound) = 0 ->
   priv_regs (dm_priv (snd (rcar_gen3_phy_probe dt_read_addr_ok dt_supply_ok
                              clk_get_ok clk_enable_ok fdt_addr_none 22 2 tt
                              dm_unbound))) = phy_base).
Proof.
  assert (H : 22 <> 0) by lia.
  split; [exact H |]. intros Hok.
  exact (proj1 (proj2 (probe_succeeds_iff dt_read_addr_ok dt_supply_ok
                         clk_get_ok clk_enable_ok fdt_addr_none 22 2 tt
                         dm_unbound H) Hok)).
Defined.

Lemma probed_phy_without_regulator_witness :
  (dt_read_addr_ok tt <> fdt_addr_none /\
   dt_no_supply tt "vbus-supply"%string None = (- 2, None) /\
   fst (clk_get_ok tt 0 0%nat) = 0 /\
   fst (clk_enable_ok (snd (clk_get_ok tt 0 0%nat))) = 0) /\
  rcar_gen3_phy_phy_power_off regulator_eio
    (phy_of_priv
       (dm_priv (snd (rcar_gen3_phy_probe dt_read_addr_ok dt_no_supply
                        clk_get_ok clk_enable_ok fdt_addr_none 22 2 tt
                        dm_unbound)))) world_bit8 = (0, world_bit8).
Proof.
  split; [repeat split; vm_compute; discriminate |].
  apply (probed_phy_without_regulator dt_read_addr_ok dt_no_supply clk_get_ok
           clk_enable_ok fdt_addr_none 22 2 regulator_eio tt dm_unbound
           world_bit8);
    first [reflexivity | vm_compute; discriminate].
Defined.
